(** * ChatBridge CQHttp bridge: routing and command dispatch

    A shallow embedding of [chatbridge/impl/cqhttp/entry.py]: the handlers
    [CQBot.on_message], [CQBot.send_text] and
    [CqHttpChatBridgeClient.on_command], with the Python string primitives
    they call, and the properties of the routing engine stated over them. *)

From stdpp Require Import gmap strings list.
From Stdlib Require Import ZArith NArith Lia DecimalString.

Set Warnings "-register-all".
#[local] Open Scope N_scope.

(** ** Python [str]

    A Python string is a sequence of Unicode code points; [len] counts code
    points, so a string is modelled as a list of code points. *)

Module Py.

Definition char := N.
Definition str := list N.

(** Decoding of a UTF-8 byte sequence, used to write string constants of the
    source as literals. *)
Definition byte_of_ascii (a : Ascii.ascii) : N := N.of_nat (Ascii.nat_of_ascii a).

Definition cont (b : N) : N := N.land b 0x3F.

Fixpoint utf8_decode (bs : list N) : str :=
  match bs with
  | [] => []
  | b :: r =>
      if b <? 0x80 then b :: utf8_decode r
      else if b <? 0xE0 then
        match r with
        | b1 :: r1 =>
            (N.shiftl (N.land b 0x1F) 6 + cont b1) :: utf8_decode r1
        | _ => []
        end
      else if b <? 0xF0 then
        match r with
        | b1 :: b2 :: r2 =>
            (N.shiftl (N.land b 0x0F) 12 + N.shiftl (cont b1) 6 + cont b2)
              :: utf8_decode r2
        | _ => []
        end
      else
        match r with
        | b1 :: b2 :: b3 :: r3 =>
            (N.shiftl (N.land b 0x07) 18 + N.shiftl (cont b1) 12
             + N.shiftl (cont b2) 6 + cont b3) :: utf8_decode r3
        | _ => []
        end
  end.

Definition bytes_of_string (s : string) : list N :=
  byte_of_ascii <$> String.list_ascii_of_string s.

Definition lit (s : string) : str := utf8_decode (bytes_of_string s).

Definition len (s : str) : nat := length s.

(** [str.isspace] on one code point: the characters [str.strip] and
    [str.split()] treat as whitespace. *)
Definition isspace (c : char) : bool :=
  ((0x09 <=? c) && (c <=? 0x0D)) || ((0x1C <=? c) && (c <=? 0x20))
  || (c =? 0x85) || (c =? 0xA0) || (c =? 0x1680)
  || ((0x2000 <=? c) && (c <=? 0x200A))
  || (c =? 0x2028) || (c =? 0x2029) || (c =? 0x202F) || (c =? 0x205F)
  || (c =? 0x3000).

(** The line boundaries of [str.splitlines]. *)
Definition is_linebreak (c : char) : bool :=
  ((0x0A <=? c) && (c <=? 0x0D)) || ((0x1C <=? c) && (c <=? 0x1E))
  || (c =? 0x85) || (c =? 0x2028) || (c =? 0x2029).

Fixpoint lstrip (s : str) : str :=
  match s with
  | [] => []
  | c :: r => if isspace c then lstrip r else s
  end.

Definition rstrip (s : str) : str := rev (lstrip (rev s)).

Definition strip (s : str) : str := rstrip (lstrip s).

Fixpoint startswith (s p : str) : bool :=
  match p, s with
  | [], _ => true
  | _ :: _, [] => false
  | a :: p', b :: s' => (a =? b) && startswith s' p'
  end.

Definition str_eqb (a b : str) : bool := bool_decide (a = b).

(** [s[1:]] *)
Definition tail1 (s : str) : str := drop 1 s.

(** [s.split(sep)] for a one-character separator: every occurrence splits,
    empty fields are kept. *)
Fixpoint split_on (sep : char) (cur : str) (s : str) : list str :=
  match s with
  | [] => [cur]
  | c :: r =>
      if c =? sep then cur :: split_on sep [] r
      else split_on sep (cur ++ [c]) r
  end.

Definition split (s : str) (sep : char) : list str := split_on sep [] s.

(** [s.split(sep, 1)] *)
Fixpoint split1_on (sep : char) (cur : str) (s : str) : list str :=
  match s with
  | [] => [cur]
  | c :: r =>
      if c =? sep then [cur; r] else split1_on sep (cur ++ [c]) r
  end.

Definition split1 (s : str) (sep : char) : list str := split1_on sep [] s.

(** [s.split(maxsplit=n)]: runs of whitespace separate the fields; once
    [n] fields are read the rest of the string, without its leading
    whitespace, is the last field. [cur] is the field being read. *)
Fixpoint split_ws_go (maxcount : nat) (cur : option str) (s : str) : list str :=
  match s with
  | [] => match cur with Some w => [w] | None => [] end
  | c :: r =>
      match cur with
      | None =>
          if isspace c then split_ws_go maxcount None r
          else match maxcount with
               | O => [s]
               | S m => split_ws_go m (Some [c]) r
               end
      | Some w =>
          if isspace c then w :: split_ws_go maxcount None r
          else split_ws_go maxcount (Some (w ++ [c])) r
      end
  end.

Definition split_ws (s : str) (maxsplit : nat) : list str :=
  split_ws_go maxsplit None s.

(** [s.splitlines(keepends=True)]; [cur] is the line being read. A carriage
    return followed by a line feed is one boundary. *)
Fixpoint splitlines_go (cur : str) (s : str) : list str :=
  match s with
  | [] => match cur with [] => [] | _ => [cur] end
  | c :: r =>
      if is_linebreak c then
        match r with
        | c' :: r' =>
            if (c =? 0x0D) && (c' =? 0x0A)
            then (cur ++ [c; c']) :: splitlines_go [] r'
            else (cur ++ [c]) :: splitlines_go [] r
        | [] => (cur ++ [c]) :: splitlines_go [] r
        end
      else splitlines_go (cur ++ [c]) r
  end.

Definition splitlines (s : str) : list str := splitlines_go [] s.

(** [sep.join(parts)] *)
Fixpoint join (sep : str) (parts : list str) : str :=
  match parts with
  | [] => []
  | [p] => p
  | p :: rest => p ++ sep ++ join sep rest
  end.

(** [s.find(p) != -1] *)
Fixpoint contains (s p : str) : bool :=
  startswith s p ||
  match s with
  | [] => false
  | _ :: r => contains r p
  end.

(** [str.lower] on the case mappings whose image is an ASCII letter: 'A'..'Z'
    and the Kelvin sign. The source compares the lowered token only with
    words made of ASCII lowercase letters or of uncased CJK characters, and a
    code point with any other lowercase mapping is neither one of those
    characters nor mapped to one, so the comparisons are those of
    [str.lower]. *)
Definition lower_char (c : char) : char :=
  if (0x41 <=? c) && (c <=? 0x5A) then c + 0x20
  else if c =? 0x212A then 0x6B
  else c.

Definition lower (s : str) : str := lower_char <$> s.

(** [str(z)] for an [int] *)
Definition str_of_int (z : Z) : str :=
  bytes_of_string (NilZero.string_of_int (Z.to_int z)).

Definition printable (c : char) : bool := negb (isspace c).

Definition no_linebreak (s : str) : bool :=
  forallb (fun c => negb (is_linebreak c)) s.

(** The last character, if any, is not a line boundary. *)
Definition open_ended (s : str) : Prop :=
  match last s with Some c => is_linebreak c = false | None => True end.

End Py.

Import Py.

(** ** Values decoded from JSON, exceptions and effects *)

Inductive json :=
  | JNull
  | JBool (b : bool)
  | JNum (z : Z)
  | JStr (s : str)
  | JArr (l : list json)
  | JObj (o : gmap string json).

Inductive exn :=
  | JSONDecodeError | KeyError | IndexError | ValueError | TypeError
  | AttributeError.

(** What a handler does to its two collaborators and to its log. The
    [logger.info] and [logger.warning] lines of the source are not traced;
    [logger.exception] is. *)
Inductive action :=
  | SendGroupMsg (message : str)
      (* [_send_text]: one send_group_msg frame on the socket *)
  | SendCommand (client command : str) (params : option (gmap string json))
      (* [chatClient.send_command] *)
  | SendChat (text : str) (sender : json)
      (* [chatClient.send_chat] *)
  | Consume (key : str)
      (* [limiter.consume] *)
  | LogException (msg : str).

(** A handler body either runs on, executes [return], or raises; what it sent
    before stays sent. *)
Inductive ctl (A : Type) :=
  | Next (a : A)
  | Return
  | Raise (e : exn).
Arguments Next {A} a.
Arguments Return {A}.
Arguments Raise {A} e.

Definition M (A : Type) : Type := (list action * ctl A)%type.

#[global] Instance M_ret : MRet M := fun A a => ([], Next a).

#[global] Instance M_bind : MBind M := fun A B f m =>
  match m with
  | (tr, Next a) => let '(tr', c) := f a in (tr ++ tr', c)
  | (tr, Return) => (tr, Return)
  | (tr, Raise e) => (tr, Raise e)
  end.

Definition emit (a : action) : M unit := ([a], Next tt).
Definition py_return {A} : M A := ([], Return).
Definition raise {A} (e : exn) : M A := ([], Raise e).
Definition pass : M unit := mret tt.

(** [try: body except: handler] *)
Definition try_except {A} (body : M A) (handler : M A) : M A :=
  match body with
  | (tr, Raise _) => let '(tr', c) := handler in (tr ++ tr', c)
  | r => r
  end.

Definition trace {A} (m : M A) : list action := m.1.
Definition outcome {A} (m : M A) : ctl A := m.2.

(** The handler let an exception out to its caller. *)
Definition propagates {A} (m : M A) : bool :=
  match outcome m with Raise _ => true | _ => false end.

(** The handler body ended in [return] rather than running on to the next
    statement. *)
Definition returned {A} (m : M A) : bool :=
  match outcome m with Return => true | _ => false end.

(** The frames sent to the chat room, in order. *)
Definition group_msgs (tr : list action) : list str :=
  omap (fun a => match a with SendGroupMsg m => Some m | _ => None end) tr.

(** *** Operations on decoded values *)

(** [d.get(k)] *)
Definition dict_get (d : json) (k : string) : M (option json) :=
  match d with
  | JObj o => mret (o !! k)
  | _ => raise AttributeError
  end.

(** [d[k]] *)
Definition subscript (d : json) (k : string) : M json :=
  match d with
  | JObj o => match o !! k with Some v => mret v | None => raise KeyError end
  | _ => raise TypeError
  end.

(** [v == s] for a string [s] *)
Definition eq_str (v : option json) (s : str) : bool :=
  match v with Some (JStr s') => str_eqb s' s | _ => false end.

(** [v == n] for an [int] [n] *)
Definition eq_int (v : json) (n : Z) : bool :=
  match v with
  | JNum z => (z =? n)%Z
  | JBool b => ((if b then 1 else 0) =? n)%Z
  | _ => false
  end.

Definition is_None (v : json) : bool :=
  match v with JNull => true | _ => false end.

(** [len(v)] *)
Definition py_len (v : json) : M nat :=
  match v with
  | JStr s => mret (len s)
  | JArr l => mret (length l)
  | JObj o => mret (size o)
  | _ => raise TypeError
  end.

(** Truth value of a decoded value, as [if v:] tests it; [None] is what
    [dict.get] gives for a missing key. *)
Definition truthy (v : option json) : bool :=
  match v with
  | None | Some JNull => false
  | Some (JBool b) => b
  | Some (JNum z) => negb (z =? 0)%Z
  | Some (JStr s) => negb (bool_decide (s = []))
  | Some (JArr l) => negb (bool_decide (length l = 0%nat))
  | Some (JObj o) => negb (bool_decide (size o = 0%nat))
  end.

(** ** Configuration, collaborators and message constants *)

(** [CqHttpConfig], with the fields the handlers read. *)
Record CqHttpConfig := {
  react_group_id : Z;
  qq_whitelist : bool;
  qq_list : list Z;
  admin : list Z;
  allow_easyauth_offline_reg_for_everyone : bool;
  allow_whitelist_for_everyone : bool;
  client_to_query_online : str;
  client_to_query_stats : str;
  qq_to_mc_auto : bool;
  qq_limiter : bool;
  qq_max_length : Z;
  mc_whitelist : bool;
  mc_list : list str;
  mc_to_qq_auto : bool;
  forward_join_message : bool;
  mc_limiter : bool;
  mc_max_length : Z
}.

(** The module globals and the collaborators' answers at the time one event
    is handled. *)
Record World := {
  chatClient_set : bool;      (* [chatClient is not None] *)
  cq_bot_set : bool;          (* [cq_bot is not None] *)
  link_online : bool;         (* what [chatClient.is_online()] answers *)
  qq_consume : bool;          (* what [qq_limiter.consume('qq')] answers *)
  mc_consume : bool           (* what [mc_limiter.consume('mc')] answers *)
}.

(** [StatsQueryResult], [OnlineQueryResult] and [RemoteCommandResult], as the
    handler reads them. *)
Record StatsQueryResult := {
  stats_success : bool;
  stats_name : str;
  stats_data : list str;
  total : Z;
  error_code : option Z
}.

Record OnlineQueryResult := { online_data : list str }.

Record RemoteCommandResult := { success : bool }.

(** [CommandPayload] *)
Record CommandPayload := {
  command : str;
  responded : bool;
  params : gmap string json;
  result : json
}.

(** [ChatPayload] *)
Record ChatPayload := {
  author : str;
  message : str
}.

(** Library and collaborator functions the handlers call and whose code is
    outside this file. *)
Record Runtime := {
  html_unescape : str -> str;
      (* [html.unescape] *)
  cq_sub : str -> str;
      (* [re.sub(r"\[CQ:(\w+)(,(\w+)=(.*?))*]", "[不支持的消息格式]", text)] *)
  join_leave_match : str -> bool;
      (* [re.match(r'.+ (joined|left) .+', text)] *)
  int_of_str : str -> option Z;
      (* [int(s)] on a string, [None] for ValueError *)
  is_valid_minecraft_username : str -> bool;
      (* [utils.is_valid_minecraft_username] *)
  formatted_str : ChatPayload -> str;
      (* [ChatPayload.formatted_str] *)
  deserialize_stats : json -> exn + StatsQueryResult;
  deserialize_online : json -> exn + OnlineQueryResult;
  deserialize_remote : json -> exn + RemoteCommandResult
      (* the three [deserialize] class methods, [inl] when they raise *)
}.

Definition CQHelpMessage : str := Eval vm_compute in lit
"!!help: 显示本条帮助信息
!!ping: pong!!
!!mc <消息>: 向 MC 中发送聊天信息 <消息>
!!online: 显示在线列表
!!stats <类别> <内容> [<-bot>]: 查询统计信息 <类别>.<内容> 的排名".

Definition StatsHelpMessage : str := Eval vm_compute in lit
"!!stats <类别> <内容> [<-bot>]
添加 `-bot` 来列出 bot
例子:
!!stats used diamond_pickaxe
!!stats custom time_since_rest -bot".

Definition msg_offline : str := Eval vm_compute in lit "ChatBridge 客户端离线".
Definition msg_bad_username : str := Eval vm_compute in lit "非法的用户名！".
Definition msg_command_failed : str :=
  Eval vm_compute in lit "命令执行失败：格式错误或权限不足".
Definition msg_stats_not_found : str := Eval vm_compute in lit "统计信息未找到".
Definition msg_stats_plugin : str := Eval vm_compute in lit "StatsHelper 插件未加载".
Definition msg_player_list : str := Eval vm_compute in lit "====== 玩家列表 ======".
Definition msg_executed : str := Eval vm_compute in lit "命令已执行".
Definition msg_server_down : str :=
  Eval vm_compute in lit "Minecraft服务器未在运行，请稍后再试".
Definition msg_total : str := Eval vm_compute in lit "总数：".

Definition space : char := 0x20.
Definition newline : str := [0x0A].

(** [{"IsQQ": True, "Type": "Vanilla"}] and [{"IsQQ": True, "Type": "MCDR"}] *)
Definition vanilla_params : gmap string json :=
  {[ "IsQQ" := JBool true; "Type" := JStr (lit "Vanilla") ]}.
Definition mcdr_params : gmap string json :=
  {[ "IsQQ" := JBool true; "Type" := JStr (lit "MCDR") ]}.

(** ** [CQBot.send_text] *)

(** The loop over [lines]: [msg] and [msg_len] are the pending segment and
    its running length, the head of [lines] is [lines[i]]. *)
Fixpoint send_text_loop (msg : str) (msg_len : nat) (lines : list str) : list str :=
  match lines with
  | [] => []
  | line :: rest =>
      let msg := msg ++ line in
      let msg_len := (msg_len + len line)%nat in
      match rest with
      | [] => [msg]
      | next :: _ =>
          if (500 <? msg_len + len next)%nat
          then msg :: send_text_loop [] 0 rest
          else send_text_loop msg msg_len rest
      end
  end.

(** The texts [send_text] hands to [_send_text], in order. *)
Definition send_text_chunks (text : str) : list str :=
  send_text_loop [] 0 (splitlines (rstrip text)).

(** [_send_text]: one [send_group_msg] frame for the relay group. *)
Definition _send_text (text : str) : M unit := emit (SendGroupMsg text).

Definition send_text (text : str) : M unit :=
  foldr (fun msg rest => _send_text msg ;; rest) pass (send_text_chunks text).

(** [send_message]: [send_text('[{}] {}'.format(sender, message))] *)
Definition send_message (sender message : str) : M unit :=
  send_text (lit "[" ++ sender ++ lit "] " ++ message).

(** The text [on_command] builds for a successful stats result:
    [messages] joined by line feeds. *)
Definition stats_table (result : StatsQueryResult) : str :=
  let messages :=
    [lit "====== " ++ stats_name result ++ lit " ======"]
    ++ stats_data result
    ++ [msg_total ++ str_of_int (total result)] in
  join newline messages.

(** ** The handlers *)

Section Handlers.

Variable rt : Runtime.
Variable cfg : CqHttpConfig.
Variable w : World.

(** [int(v)] *)
Definition py_int (v : json) : M Z :=
  match v with
  | JNum z => mret z
  | JBool b => mret (if b then 1 else 0)%Z
  | JStr s => match int_of_str rt s with
              | Some z => mret z
              | None => raise ValueError
              end
  | _ => raise TypeError
  end.

(** The receiver of [.split(' ')] and [.strip()]: only a string has them. *)
Definition as_str (v : json) : M str :=
  match v with
  | JStr s => mret s
  | _ => raise AttributeError
  end.

(** [chatClient.is_online], the bound method and not a call of it: as a
    condition it is true whatever the state of the link. *)
Definition is_online_attribute : bool := true.

(** Lines 73-123: the lines that start with '#'. [uid] is
    [int(data['user_id'])] and [raw] is [data['raw_message']]. *)
Definition privileged_gate (uid : Z) (raw : str) : M unit :=
  if startswith (strip raw) (lit "#") then
    let cmd := split_ws (strip (tail1 raw)) 2 in
    match cmd with
    | cmd0 :: cmd1 :: cmd2 :: _ =>
        if bool_decide (uid ∈ admin cfg) then
          if str_eqb cmd0 (lit "/") then
            (if link_online w
             then emit (SendCommand cmd1 cmd2 (Some vanilla_params))
             else send_text msg_offline) ;;
            py_return
          else if str_eqb cmd0 (lit "!") then
            (if link_online w
             then emit (SendCommand cmd1 cmd2 (Some mcdr_params))
             else send_text msg_offline) ;;
            py_return
          else pass
        else if bool_decide (lower cmd0 ∈ [lit "离线"; lit "offline"])
                && (bool_decide (uid ∈ admin cfg)
                    || allow_easyauth_offline_reg_for_everyone cfg) then
          let u_name := strip cmd2 in
          if negb (is_valid_minecraft_username rt u_name) then
            send_text msg_bad_username ;; py_return
          else
            (if link_online w
             then
               let cmd_to_send := lit "auth addToForcedOffline " ++ u_name in
               emit (SendCommand cmd1 cmd_to_send (Some vanilla_params))
             else send_text msg_offline) ;;
            py_return
        else if bool_decide (lower cmd0 ∈ [lit "白名单"; lit "whitelist"])
                && (bool_decide (uid ∈ admin cfg)
                    || allow_whitelist_for_everyone cfg) then
          let u_name := strip cmd2 in
          if negb (is_valid_minecraft_username rt u_name) then
            send_text msg_bad_username ;; py_return
          else
            (if link_online w
             then
               let cmd_to_send := lit "whitelist add " ++ u_name in
               emit (SendCommand cmd1 cmd_to_send (Some vanilla_params))
             else send_text msg_offline) ;;
            py_return
        else
          send_text msg_command_failed ;; py_return
    | _ => pass
    end
  else pass.

(** Lines 125-145: [!!help], [!!ping], [!!online]. *)
Definition fixed_commands (args : list str) : M unit :=
  match args with
  | [arg0] =>
      if str_eqb arg0 (lit "!!help") then
        send_text CQHelpMessage ;; py_return
      else if str_eqb arg0 (lit "!!ping") then
        send_text (lit "pong!!") ;; py_return
      else if str_eqb arg0 (lit "!!online") then
        (if link_online w
         then emit (SendCommand (client_to_query_online cfg) arg0 None)
         else send_text msg_offline) ;;
        py_return
      else pass
  | _ => pass
  end.

(** Lines 147-159: [!!stats]. *)
Definition stats_command (args : list str) : M unit :=
  match args with
  | arg0 :: rest =>
      if str_eqb arg0 (lit "!!stats") then
        let command := lit "!!stats rank " ++ join [space] rest in
        if bool_decide (length args = 0%nat)
           || negb (Z.of_nat (length args)
                    - (if contains command (lit "-bot") then 1 else 0) =? 3)%Z
        then send_text StatsHelpMessage ;; py_return
        else
          (if is_online_attribute
           then emit (SendCommand (client_to_query_stats cfg) command None)
           else send_text msg_offline) ;;
          py_return
      else pass
  | [] => pass
  end.

(** Lines 161-169: [!!killbot]. *)
Definition killbot_command (args : list str) : M unit :=
  match args with
  | [arg0; arg1; arg2] =>
      if str_eqb arg0 (lit "!!killbot") then
        (if link_online w
         then
           let command := lit "player " ++ arg2 ++ lit " kill" in
           emit (SendCommand arg1 command (Some vanilla_params))
         else send_text msg_offline) ;;
        py_return
      else pass
  | _ => pass
  end.

(** Lines 171-191: the relay of chat text to the remote side. *)
Definition relay (data : json) (uid : Z) (raw : str) (args : list str) : M unit :=
  if qq_to_mc_auto cfg
     || match args with
        | arg0 :: _ :: _ => str_eqb arg0 (lit "!!mc")
        | _ => false
        end
  then
    (if negb (bool_decide (uid ∈ admin cfg)) && qq_limiter cfg then
       emit (Consume (lit "qq")) ;;
       if negb (qq_consume w) then py_return else pass
     else pass) ;;
    s ← subscript data "sender";
    card ← subscript s "card";
    n ← py_len card;
    sender ← (if bool_decide (n = 0%nat)
              then s' ← subscript data "sender"; subscript s' "nickname"
              else mret card);
    text ← (if qq_to_mc_auto cfg then mret (html_unescape rt raw)
            else match split1 raw space !! 1%nat with
                 | Some t => mret (html_unescape rt t)
                 | None => raise IndexError
                 end);
    let text := cq_sub rt text in
    if (0 <? qq_max_length cfg)%Z && (qq_max_length cfg <? Z.of_nat (len text))%Z
    then py_return
    else emit (SendChat text sender)
  else pass.

(** Lines 62-191: a group message. The [logger.info] of line 63, which
    writes the event to the log before anything else is read, is one of the
    untraced log lines. *)
Definition group_message (data : json) : M unit :=
  anonymous ← subscript data "anonymous";
  if is_None anonymous then
    gid ← subscript data "group_id";
    if eq_int gid (react_group_id cfg) then
      rm ← subscript data "raw_message";
      raw ← as_str rm;
      let args := split raw space in
      u ← subscript data "user_id";
      uid ← py_int u;
      (if qq_whitelist cfg
       then (if negb (bool_decide (uid ∈ qq_list cfg)) then py_return else pass)
       else (if bool_decide (uid ∈ qq_list cfg) then py_return else pass)) ;;
      privileged_gate uid raw ;;
      fixed_commands args ;;
      stats_command args ;;
      killbot_command args ;;
      relay data uid raw args
    else pass
  else pass.

(** The body of the [try] of [CQBot.on_message]; [decoded] is what
    [json.loads(message)] gives, [None] when it raises. *)
Definition on_message_body (decoded : option json) : M unit :=
  if negb (chatClient_set w) then py_return
  else
    data ← match decoded with
           | Some d => mret d
           | None => raise JSONDecodeError
           end;
    post_type ← dict_get data "post_type";
    message_type ← dict_get data "message_type";
    if eq_str post_type (lit "message") && eq_str message_type (lit "group")
    then group_message data
    else pass.

Definition on_message (decoded : option json) : M unit :=
  try_except (on_message_body decoded)
             (emit (LogException (lit "Error in on_message()"))).

(** [if self.config.mc_limiter and not mc_limiter.consume('mc'): return] *)
Definition mc_rate_gate : M unit :=
  if mc_limiter cfg then
    emit (Consume (lit "mc")) ;;
    if negb (mc_consume w) then py_return else pass
  else pass.

(** The tail shared by the two branches of [on_chat]: the length cap, then
    [cq_bot.send_message]. *)
Definition forward_to_group (sender : str) (payload : ChatPayload) : M unit :=
  let text := formatted_str rt payload in
  if (0 <? mc_max_length cfg)%Z && (mc_max_length cfg <? Z.of_nat (len text))%Z
  then py_return
  else send_message sender text.

(** The body of the [try] of [CqHttpChatBridgeClient.on_chat]. *)
Definition on_chat_body (sender : str) (payload : ChatPayload) : M unit :=
  (if mc_whitelist cfg
   then (if negb (bool_decide (author payload ∈ mc_list cfg)) then py_return else pass)
   else (if bool_decide (author payload ∈ mc_list cfg) then py_return else pass)) ;;
  if mc_to_qq_auto cfg && negb (startswith (strip (message payload)) (lit "!!"))
  then
    (if negb (forward_join_message cfg)
        && join_leave_match rt (strip (message payload))
     then py_return else pass) ;;
    mc_rate_gate ;;
    forward_to_group sender payload
  else
    match split1 (message payload) space with
    | [prefix; message'] =>
        if str_eqb prefix (lit "!!qq") then
          mc_rate_gate ;;
          forward_to_group sender {| author := author payload; message := message' |}
        else pass
    | _ => pass (* the unpacking raises; the inner [except: pass] takes it *)
    end.

Definition on_chat (sender : str) (payload : ChatPayload) : M unit :=
  if negb (cq_bot_set w) then py_return
  else try_except (on_chat_body sender payload)
                  (emit (LogException (lit "Error in on_message()"))).

(** [cq_bot.send_text(text)] where [cq_bot] is the module global. *)
Definition cq_bot_send_text (text : str) : M unit :=
  if cq_bot_set w then send_text text else raise AttributeError.

Definition deserialized {A} (r : exn + A) : M A :=
  match r with
  | inr a => mret a
  | inl e => raise e
  end.

(** [CqHttpChatBridgeClient.on_command]; the method has no [try]. *)
Definition on_command (sender : str) (payload : CommandPayload) : M unit :=
  if negb (responded payload) then py_return
  else if startswith (command payload) (lit "!!stats ") then
    result ← deserialized (deserialize_stats rt (result payload));
    if stats_success result then
      cq_bot_send_text (stats_table result)
    else if bool_decide (error_code result = Some 1%Z) then
      cq_bot_send_text msg_stats_not_found
    else if bool_decide (error_code result = Some 2%Z) then
      cq_bot_send_text msg_stats_plugin
    else pass
  else if str_eqb (command payload) (lit "!!online") then
    result ← deserialized (deserialize_online rt (result payload));
    cq_bot_send_text (msg_player_list ++ newline ++ join newline (online_data result))
  else if truthy (params payload !! "IsQQ") then
    result ← deserialized (deserialize_remote rt (result payload));
    cq_bot_send_text (if success result then msg_executed else msg_server_down)
  else pass.

End Handlers.

(** ** A runtime and events to evaluate the handlers on *)

(** Modelled from the spec: [utils.is_valid_minecraft_username] is not in the
    excerpt; the spec gives the rule as non-empty, of bounded length, made of
    letters, digits and underscore. The bound is a parameter. *)
Definition is_username_char (c : char) : bool :=
  ((0x30 <=? c) && (c <=? 0x39)) || ((0x41 <=? c) && (c <=? 0x5A))
  || ((0x61 <=? c) && (c <=? 0x7A)) || (c =? 0x5F).

Definition valid_username (bound : nat) (s : str) : bool :=
  negb (bool_decide (s = [])) && (len s <=? bound)%nat && forallb is_username_char s.

Definition json_strings (l : list json) : list str :=
  omap (fun v => match v with JStr s => Some s | _ => None end) l.

Definition read_stats (v : json) : exn + StatsQueryResult :=
  match v with
  | JObj o =>
      match o !! "success", o !! "stats_name", o !! "data", o !! "total" with
      | Some (JBool b), Some (JStr n), Some (JArr d), Some (JNum t) =>
          inr {| stats_success := b; stats_name := n;
                 stats_data := json_strings d; total := t;
                 error_code := match o !! "error_code" with
                               | Some (JNum e) => Some e
                               | _ => None
                               end |}
      | _, _, _, _ => inl KeyError
      end
  | _ => inl TypeError
  end.

Definition read_online (v : json) : exn + OnlineQueryResult :=
  match v with
  | JObj o =>
      match o !! "data" with
      | Some (JArr d) => inr {| online_data := json_strings d |}
      | _ => inl KeyError
      end
  | _ => inl TypeError
  end.

Definition read_remote (v : json) : exn + RemoteCommandResult :=
  match v with
  | JObj o =>
      match o !! "success" with
      | Some (JBool b) => inr {| success := b |}
      | _ => inl KeyError
      end
  | _ => inl TypeError
  end.

(** A runtime for texts without character references and without CQ
    markers, on which [html.unescape] and the [re.sub] change nothing. *)
Definition plain_runtime : Runtime := {|
  html_unescape := fun s => s;
  cq_sub := fun s => s;
  join_leave_match := fun _ => false;
  int_of_str := fun _ => None;
  is_valid_minecraft_username := valid_username 16;
  formatted_str := fun p => lit "<" ++ author p ++ lit "> " ++ message p;
  deserialize_stats := read_stats;
  deserialize_online := read_online;
  deserialize_remote := read_remote
|}.

(** Group 1000, blacklist mode with an empty list, user 1 the only admin;
    [auto] is the automatic relay to the remote side, [everyone] the two
    "allow for everyone" overrides. *)
Definition config (auto everyone : bool) : CqHttpConfig := {|
  react_group_id := 1000;
  qq_whitelist := false;
  qq_list := [];
  admin := [1%Z];
  allow_easyauth_offline_reg_for_everyone := everyone;
  allow_whitelist_for_everyone := everyone;
  client_to_query_online := lit "survival";
  client_to_query_stats := lit "survival";
  qq_to_mc_auto := auto;
  qq_limiter := false;
  qq_max_length := 0;
  mc_whitelist := false;
  mc_list := [];
  mc_to_qq_auto := false;
  forward_join_message := true;
  mc_limiter := false;
  mc_max_length := 0
|}.

Definition world (bot online : bool) : World := {|
  chatClient_set := true;
  cq_bot_set := bot;
  link_online := online;
  qq_consume := true;
  mc_consume := true
|}.

(** The event the transport delivers for the group text [text] sent by user
    [uid] in group 1000. *)
Definition group_event (uid : Z) (text : string) : json :=
  JObj {[ "post_type" := JStr (lit "message");
          "message_type" := JStr (lit "group");
          "anonymous" := JNull;
          "group_id" := JNum 1000;
          "user_id" := JNum uid;
          "raw_message" := JStr (lit text);
          "sender" := JObj {[ "card" := JStr [];
                              "nickname" := JStr (lit "Alex") ]} ]}.

(** Answers of the remote side, none of them with an [IsQQ] parameter: a
    player list, a stats table and two stats failures. *)
Definition online_reply : CommandPayload := {|
  command := lit "!!online";
  responded := true;
  params := ∅;
  result := JObj {[ "data" := JArr [JStr (lit "Steve"); JStr (lit "Alex")] ]}
|}.

Definition stats_reply (ok : bool) (code : Z) : CommandPayload := {|
  command := lit "!!stats rank used diamond_pickaxe";
  responded := true;
  params := ∅;
  result := JObj {[ "success" := JBool ok;
                    "stats_name" := JStr (lit "used.diamond_pickaxe");
                    "data" := JArr [JStr (lit "#1 Steve 12"); JStr (lit "#2 Alex 7")];
                    "total" := JNum 19;
                    "error_code" := JNum code ]}
|}.

(** A command this client is asked to run: [responded] is false. *)
Definition pending_command : CommandPayload := {|
  command := lit "!!online";
  responded := false;
  params := {[ "IsQQ" := JBool true ]};
  result := JNull
|}.

(** The answer to a command some other client issued: no [IsQQ]. *)
Definition foreign_reply : CommandPayload := {|
  command := lit "list";
  responded := true;
  params := {[ "Type" := JStr (lit "Vanilla") ]};
  result := JObj {[ "success" := JBool true ]}
|}.

(** ** Predicates the statements use *)

(** The access gate of lines 66-71 lets [uid] through. *)
Definition qq_allowed (cfg : CqHttpConfig) (uid : Z) : bool :=
  if qq_whitelist cfg then bool_decide (uid ∈ qq_list cfg)
  else negb (bool_decide (uid ∈ qq_list cfg)).

(** [data] is a group text message of the relay group, not anonymous, with
    text [raw] and a sender whose id reads as [uid]. *)
Definition group_text (rt : Runtime) (cfg : CqHttpConfig)
    (data : json) (uid : Z) (raw : str) : Prop :=
  exists (o : gmap string json) (g u : json),
    data = JObj o
    /\ o !! "post_type" = Some (JStr (lit "message"))
    /\ o !! "message_type" = Some (JStr (lit "group"))
    /\ o !! "anonymous" = Some JNull
    /\ o !! "group_id" = Some g /\ eq_int g (react_group_id cfg) = true
    /\ o !! "raw_message" = Some (JStr raw)
    /\ o !! "user_id" = Some u /\ py_int rt u = mret uid.

(** The steps of [on_message] after the access gate, for the text [raw] of
    sender [uid]. *)
Definition dispatch (rt : Runtime) (cfg : CqHttpConfig) (w : World)
    (data : json) (uid : Z) (raw : str) : M unit :=
  privileged_gate rt cfg w uid raw ;;
  fixed_commands cfg w (split raw space) ;;
  stats_command cfg (split raw space) ;;
  killbot_command w (split raw space) ;;
  relay rt cfg w data uid raw (split raw space).

(** The stats arity rule in the words of the specification: the number of
    tokens, one [-bot] flag token left out when there is one, is 3. *)
Fixpoint without_flag (args : list str) : list str :=
  match args with
  | [] => []
  | a :: r => if str_eqb a (lit "-bot") then r else a :: without_flag r
  end.

Definition stats_arity_spec (args : list str) : bool :=
  bool_decide (length (without_flag args) = 3%nat).

(** The arity test of line 150. *)
Definition stats_arity (args : list str) : bool :=
  let command := lit "!!stats rank " ++ join [space] (drop 1 args) in
  (Z.of_nat (length args) - (if contains command (lit "-bot") then 1 else 0) =? 3)%Z.

(** ** Predicates for the statements about the segments of [send_text] *)

(** The last character is a line boundary. *)
Definition ends_line (s : str) : Prop :=
  match last s with Some c => is_linebreak c = true | None => False end.

(** [P] holds of every element but the last. *)
Fixpoint all_but_last {A} (P : A -> Prop) (l : list A) : Prop :=
  match l with
  | [] => True
  | x :: rest => match rest with [] => True | _ => P x /\ all_but_last P rest end
  end.

(** Of two neighbouring groups of lines, the first together with the first
    line of the second is over the limit of 500 characters. *)
Fixpoint closed_when_full (groups : list (list str)) : Prop :=
  match groups with
  | [] => True
  | g :: rest =>
      match rest with
      | (next :: _) :: _ => (500 < len (concat g) + len next)%nat
      | _ => True
      end /\ closed_when_full rest
  end.

(** ** Predicates for the statements about the routers *)

(** The event [data] reaches the dispatch of [on_message]: the client is
    set, the event is a group text [raw] of the relay group, and the access
    gate lets its sender [uid] through. *)
Definition accepted (rt : Runtime) (cfg : CqHttpConfig) (w : World)
    (data : json) (uid : Z) (raw : str) : Prop :=
  chatClient_set w = true /\ group_text rt cfg data uid raw
  /\ qq_allowed cfg uid = true.

(** [data['sender']] is an object with the strings [card] and [nickname]. *)
Definition has_sender (data : json) (card nickname : str) : Prop :=
  exists (o s : gmap string json),
    data = JObj o /\ o !! "sender" = Some (JObj s)
    /\ s !! "card" = Some (JStr card) /\ s !! "nickname" = Some (JStr nickname).

(** The first fields that lines 126-161 react to. *)
Definition command_words : list str :=
  [lit "!!help"; lit "!!ping"; lit "!!online"; lit "!!stats"; lit "!!killbot"].

(** The access gate of lines 239-244 lets [name] through. *)
Definition mc_allowed (cfg : CqHttpConfig) (name : str) : bool :=
  if mc_whitelist cfg then bool_decide (name ∈ mc_list cfg)
  else negb (bool_decide (name ∈ mc_list cfg)).

(** [0 < cap < len(text)], the test of lines 187, 256 and 274. *)
Definition over_cap (cap : Z) (text : str) : bool :=
  (0 <? cap)%Z && (cap <? Z.of_nat (len text))%Z.

(** What the rate gate of a direction leaves in the trace when it lets the
    message through: the one [consume] when the limiter is on. *)
Definition consumed (limited : bool) (key : string) : list action :=
  if limited then [Consume (lit key)] else [].

(** A configuration for the remote-to-chat-room direction: automatic relay
    [auto], join and leave notices relayed when [joins], limiter on when
    [limited]; blacklist mode with [Herobrine] on the list. *)
Definition mc_config (auto joins limited : bool) : CqHttpConfig := {|
  react_group_id := 1000;
  qq_whitelist := false;
  qq_list := [];
  admin := [1%Z];
  allow_easyauth_offline_reg_for_everyone := false;
  allow_whitelist_for_everyone := false;
  client_to_query_online := lit "survival";
  client_to_query_stats := lit "survival";
  qq_to_mc_auto := false;
  qq_limiter := false;
  qq_max_length := 0;
  mc_whitelist := false;
  mc_list := [lit "Herobrine"];
  mc_to_qq_auto := auto;
  forward_join_message := joins;
  mc_limiter := limited;
  mc_max_length := 0
|}.

(** A runtime that knows one join notice. *)
Definition join_runtime : Runtime := {|
  html_unescape := html_unescape plain_runtime;
  cq_sub := cq_sub plain_runtime;
  join_leave_match := fun s => str_eqb s (lit "Steve joined the game");
  int_of_str := int_of_str plain_runtime;
  is_valid_minecraft_username := is_valid_minecraft_username plain_runtime;
  formatted_str := formatted_str plain_runtime;
  deserialize_stats := read_stats;
  deserialize_online := read_online;
  deserialize_remote := read_remote
|}.

(** The bot and the client set, the link online, limiters answering [qq] and
    [mc]. *)
Definition limited_world (qq mc : bool) : World := {|
  chatClient_set := true;
  cq_bot_set := true;
  link_online := true;
  qq_consume := qq;
  mc_consume := mc
|}.

(** The keys lines 62-67 read from a group message, by subscript. *)
Definition required_keys : list string :=
  ["anonymous"; "group_id"; "raw_message"; "user_id"].

(** The one entry [on_message] writes to the log for an exception. *)
Definition logged_error : M unit :=
  ([LogException (lit "Error in on_message()")], Next tt).

(** The aliases of the two registration commands, lines 93 and 107. *)
Definition offline_aliases : list str := [lit "离线"; lit "offline"].
Definition whitelist_aliases : list str := [lit "白名单"; lit "whitelist"].

(** What lines 95-106 and 109-120 do once the alias is accepted: [target] is
    [cmd[1]], [arg] is [cmd[2]] and [prefix] the management command. *)
Definition registration (rt : Runtime) (w : World)
    (prefix target arg : str) : M unit :=
  if is_valid_minecraft_username rt (strip arg) then
    if link_online w
    then ([SendCommand target (prefix ++ strip arg) (Some vanilla_params)], Return)
    else ([SendGroupMsg msg_offline], Return)
  else ([SendGroupMsg msg_bad_username], Return).

(** An effect that is neither a command for the remote side nor a message
    for the chat room. *)
Definition neither_command_nor_reply (a : action) : Prop :=
  match a with
  | SendCommand _ _ _ | SendGroupMsg _ => False
  | _ => True
  end.

(** Closed decidable facts, by evaluation. *)
Ltac by_evaluation :=
  first [ reflexivity
        | apply (proj1 (bool_decide_eq_false _)); vm_compute; reflexivity
        | apply (proj1 (bool_decide_eq_true _)); vm_compute; reflexivity ].

(** The hypothesis that a sample event is accepted. *)
Ltac accept_event :=
  split; [reflexivity|split; [|reflexivity]];
  eexists _, _, _; repeat split; vm_compute; reflexivity.

(** The name lines 177-179 give the sender: the group card, or the nickname
    when the card is empty. *)
Definition sender_name (card nickname : str) : str :=
  if bool_decide (len card = 0%nat) then nickname else card.

(** The relay of [text] under the name [name] once the rate gate is passed:
    dropped when over the length cap [qq_max_length], sent as chat
    otherwise. [limited] tells whether the limiter was asked. *)
Definition relayed (cfg : CqHttpConfig) (limited : bool) (text name : str) : M unit :=
  if over_cap (qq_max_length cfg) text
  then (consumed limited "qq", Return)
  else (consumed limited "qq" ++ [SendChat text (JStr name)], Next tt).

(** A field without whitespace, and a field that is not empty and does not
    start with whitespace. *)
Definition ws_free (f : str) : Prop := forallb printable f = true.

Definition starts_printable (f : str) : Prop :=
  match f with [] => False | c :: _ => isspace c = false end.

(** * Properties *)

(** ** The string primitives on examples *)

Example lit_cjk : lit "离线" = [0x79BB; 0x7EBF].
Proof. reflexivity. Qed.

Example strip_ex : strip (lit "  #/ a b  ") = lit "#/ a b".
Proof. reflexivity. Qed.

Example split_ex : split (lit "!!stats  used") space = [lit "!!stats"; []; lit "used"].
Proof. reflexivity. Qed.

Example split_ws_ex :
  split_ws (lit "a b  c d  ") 2 = [lit "a"; lit "b"; lit "c d  "].
Proof. reflexivity. Qed.

Example splitlines_ex :
  splitlines [0x61; 0x0D; 0x0A; 0x62; 0x0A; 0x0A; 0x63]
  = [[0x61; 0x0D; 0x0A]; [0x62; 0x0A]; [0x0A]; [0x63]].
Proof. reflexivity. Qed.

Example lower_ex : lower (lit "OffLine") = lit "offline".
Proof. reflexivity. Qed.

Example str_of_int_ex :
  str_of_int 0 = lit "0" /\ str_of_int (-42) = lit "-42" /\ str_of_int 1205 = lit "1205".
Proof. repeat split; reflexivity. Qed.

(** Two lines of 300 characters do not fit one segment, two of 200 do. *)
Example send_text_ex :
  length <$> send_text_chunks (replicate 299 0x61 ++ [0x0A] ++ replicate 300 0x62)
  = [300%nat; 300%nat]
  /\ length <$> send_text_chunks (replicate 199 0x61 ++ [0x0A] ++ replicate 200 0x62)
     = [400%nat].
Proof. split; vm_compute; reflexivity. Qed.

(** The handlers on a few events: a ping, a relayed line with the automatic
    relay on, and the explicit [!!qq] relay from the remote side. *)
Example on_message_ping :
  on_message plain_runtime (config false false) (world true true)
             (Some (group_event 2 "!!ping"))
  = ([SendGroupMsg (lit "pong!!")], Return).
Proof. vm_compute. reflexivity. Qed.

Example on_message_relay :
  on_message plain_runtime (config true false) (world true true)
             (Some (group_event 2 "hello there"))
  = ([SendChat (lit "hello there") (JStr (lit "Alex"))], Next tt).
Proof. vm_compute. reflexivity. Qed.

Example on_message_undecodable :
  on_message plain_runtime (config true false) (world true true) None
  = ([LogException (lit "Error in on_message()")], Next tt).
Proof. vm_compute. reflexivity. Qed.

Example on_chat_explicit :
  on_chat plain_runtime (config false false) (world true true) (lit "survival")
          {| author := lit "Steve"; message := lit "!!qq hello" |}
  = ([SendGroupMsg (lit "[survival] <Steve> hello")], Next tt).
Proof. vm_compute. reflexivity. Qed.

(** ** The handler monad *)

Lemma bind_mret {A B} (a : A) (f : A -> M B) : (mret a ≫= f) = f a.
Proof. unfold mbind, mret, M_bind, M_ret. by destruct (f a). Qed.

Lemma bind_pass {B} (f : unit -> M B) : (pass ≫= f) = f tt.
Proof. apply bind_mret. Qed.

Lemma bind_returned {A B} (m : M A) (f : A -> M B) :
  returned m = true -> (m ≫= f) = (trace m, Return).
Proof. destruct m as [tr [a| |e]]; done. Qed.

Lemma try_except_returned {A} (m h : M A) :
  returned m = true -> try_except m h = (trace m, Return).
Proof. destruct m as [tr [a| |e]]; done. Qed.

Lemma try_except_safe {A} (m h : M A) :
  propagates h = false -> propagates (try_except m h) = false.
Proof.
  intros Hh. destruct m as [tr [a| |e]]; try done.
  destruct h as [tr' [a'| |e']]; done.
Qed.

Lemma group_msgs_sends (l : list str) : group_msgs (SendGroupMsg <$> l) = l.
Proof.
  unfold group_msgs. induction l as [|x l IH]; [done|].
  cbn [fmap list_fmap omap list_omap]. by rewrite IH.
Qed.

Lemma str_eqb_refl (s : str) : str_eqb s s = true.
Proof. unfold str_eqb. by apply bool_decide_eq_true. Qed.

(** ** [splitlines], [rstrip], [split], [str] of an [int] *)

Lemma splitlines_go_nil (cur : str) : concat (splitlines_go cur []) = cur ++ [].
Proof. destruct cur; cbn; by rewrite ?app_nil_r. Qed.

Lemma concat_splitlines_go_bounded (n : nat) :
  forall (s cur : str), (length s <= n)%nat -> concat (splitlines_go cur s) = cur ++ s.
Proof.
  induction n as [|n IH]; intros s cur Hn.
  - destruct s; [|cbn in Hn; lia]. apply splitlines_go_nil.
  - destruct s as [|c r]; [apply splitlines_go_nil|].
    cbn [length] in Hn. cbn [splitlines_go].
    destruct (is_linebreak c).
    + destruct r as [|c' r'].
      * cbn [splitlines_go concat]. by rewrite app_nil_r.
      * cbn [length] in Hn.
        destruct ((c =? 13) && (c' =? 10)); cbn [concat].
        -- rewrite IH by lia. cbn [app]. by rewrite <- app_assoc.
        -- rewrite IH by (cbn [length]; lia). cbn [app]. by rewrite <- app_assoc.
    + rewrite IH by lia. by rewrite <- app_assoc.
Qed.

(** The lines, with their ends kept, are the string cut in pieces. *)
Lemma concat_splitlines (s : str) : concat (splitlines s) = s.
Proof. unfold splitlines. by rewrite (concat_splitlines_go_bounded (length s)). Qed.

Lemma splitlines_go_no_linebreak (s : str) :
  forall cur, no_linebreak s = true ->
    splitlines_go cur s = match cur ++ s with [] => [] | l => [l] end.
Proof.
  induction s as [|c r IH]; intros cur H.
  - cbn [splitlines_go]. rewrite app_nil_r. by destruct cur.
  - cbn [no_linebreak forallb] in H. apply andb_true_iff in H as [Hc Hr].
    cbn [splitlines_go]. apply negb_true_iff in Hc. rewrite Hc.
    rewrite IH by done. by rewrite <- app_assoc.
Qed.

Lemma splitlines_go_first (s cur : str) :
  cur <> [] -> exists x rest, splitlines_go cur s = (cur ++ x) :: rest.
Proof.
  revert cur. induction s as [|c r IH]; intros cur Hne.
  - exists [], []. cbn. rewrite app_nil_r. by destruct cur.
  - cbn [splitlines_go]. destruct (is_linebreak c).
    + destruct r as [|c' r'].
      * by exists [c], (splitlines_go [] []).
      * destruct (_ && _); eauto.
    + destruct (IH (cur ++ [c])) as (x & rest & E).
      { by destruct cur. }
      exists (c :: x), rest. rewrite E. by rewrite <- app_assoc.
Qed.

Lemma open_ended_cons (c : char) (r : str) :
  r <> [] -> open_ended (c :: r) -> open_ended r.
Proof. unfold open_ended. destruct r; [done|]. by cbn. Qed.

(** Appending [ws] to a string that does not end in a line boundary only
    lengthens lines: every line of [s] starts a line of [s ++ ws]. *)
Lemma splitlines_go_prefix (n : nat) :
  forall (s cur ws : str) (l : str),
    (length s <= n)%nat -> open_ended s ->
    l ∈ splitlines_go cur s ->
    exists l', l' ∈ splitlines_go cur (s ++ ws) /\ l `prefix_of` l'.
Proof.
  induction n as [|n IH]; intros s cur ws l Hn Hopen Hl.
  - destruct s; [|cbn in Hn; lia]. cbn [app].
    cbn [splitlines_go] in Hl. destruct cur as [|a cur]; [by apply elem_of_nil in Hl|].
    apply list_elem_of_singleton in Hl. subst l.
    destruct (splitlines_go_first ws (a :: cur)) as (x & rest & E); [done|].
    rewrite E. eexists. split; [apply list_elem_of_here|]. by exists x.
  - destruct s as [|c r].
    { apply (IH [] cur ws l); [cbn; lia|done|done]. }
    cbn [length] in Hn. cbn [app splitlines_go] in *.
    destruct (is_linebreak c) eqn:Hc.
    + destruct r as [|c' r'].
      { unfold open_ended in Hopen. cbn in Hopen. congruence. }
      cbn [app]. cbn [length] in Hn.
      destruct ((c =? 13) && (c' =? 10)) eqn:Hcrlf.
      * apply elem_of_cons in Hl as [-> | Hl].
        { eexists. split; [apply list_elem_of_here|done]. }
        destruct r' as [|c'' r''].
        { apply andb_true_iff in Hcrlf as [_ Hlf]. apply N.eqb_eq in Hlf. subst c'.
          unfold open_ended in Hopen. cbn in Hopen. done. }
        destruct (IH (c'' :: r'') [] ws l) as (l' & Hl' & Hp);
          [cbn [length] in *; lia| |done|].
        { apply open_ended_cons in Hopen; [|done]. by apply open_ended_cons in Hopen. }
        exists l'. split; [by apply list_elem_of_further|done].
      * apply elem_of_cons in Hl as [-> | Hl].
        { eexists. split; [apply list_elem_of_here|done]. }
        destruct (IH (c' :: r') [] ws l) as (l' & Hl' & Hp); [cbn [length]; lia| |done|].
        { by apply open_ended_cons in Hopen. }
        exists l'. split; [by apply list_elem_of_further|done].
    + destruct r as [|c' r'].
      * apply (IH [] (cur ++ [c]) ws l); [cbn; lia|done|done].
      * apply (IH (c' :: r') (cur ++ [c]) ws l); [lia| |done].
        by apply open_ended_cons in Hopen.
Qed.

Lemma linebreak_isspace (c : char) : is_linebreak c = true -> isspace c = true.
Proof.
  unfold is_linebreak, isspace.
  rewrite !orb_true_iff, !andb_true_iff, !N.leb_le, !N.eqb_eq. lia.
Qed.

Lemma lstrip_split (s : str) :
  exists ws, s = ws ++ lstrip s /\ forallb isspace ws = true.
Proof.
  induction s as [|c r [ws [E F]]].
  - by exists [].
  - cbn [lstrip]. destruct (isspace c) eqn:Hc.
    + exists (c :: ws). cbn [forallb app]. rewrite Hc, F. by rewrite <- E.
    + by exists [].
Qed.

Lemma lstrip_head (s : str) :
  match lstrip s with [] => True | c :: _ => isspace c = false end.
Proof.
  induction s as [|c r IH]; [done|]. cbn [lstrip].
  destruct (isspace c) eqn:Hc; [done|]. by rewrite Hc.
Qed.

(** [rstrip] takes whitespace off the end and nothing else. *)
Lemma rstrip_split (s : str) :
  exists ws, s = rstrip s ++ ws /\ forallb isspace ws = true.
Proof.
  destruct (lstrip_split (rev s)) as [ws [E F]].
  exists (rev ws). split.
  - unfold rstrip. rewrite <- rev_app_distr, <- E. by rewrite rev_involutive.
  - rewrite forallb_forall in *. intros x Hx. apply F. by apply in_rev.
Qed.

Lemma rstrip_length (s : str) : (length (rstrip s) <= length s)%nat.
Proof.
  destruct (rstrip_split s) as [ws [E _]].
  rewrite E at 2. rewrite length_app. lia.
Qed.

Lemma rstrip_last (s : str) :
  match last (rstrip s) with Some c => isspace c = false | None => True end.
Proof.
  unfold rstrip. pose proof (lstrip_head (rev s)) as H.
  destruct (lstrip (rev s)) as [|c l]; [done|].
  cbn [rev]. by rewrite last_snoc.
Qed.

Lemma rstrip_open_ended (s : str) : open_ended (rstrip s).
Proof.
  unfold open_ended. pose proof (rstrip_last s) as H.
  destruct (last (rstrip s)) as [c|]; [|done].
  destruct (is_linebreak c) eqn:Hc; [|done].
  apply linebreak_isspace in Hc. congruence.
Qed.

Lemma rstrip_head (s : str) : rstrip s = [] \/ head (rstrip s) = head s.
Proof.
  destruct (rstrip_split s) as [ws [E _]].
  destruct (rstrip s) as [|c r]; [by left|right]. by rewrite E.
Qed.

Lemma rstrip_snoc (s : str) (c : char) :
  isspace c = false -> rstrip (s ++ [c]) = s ++ [c].
Proof.
  intros Hc. unfold rstrip. rewrite rev_app_distr. cbn [rev app lstrip].
  rewrite Hc. cbn [rev]. by rewrite rev_involutive.
Qed.

Lemma rstrip_printable_end (s t : str) :
  forallb printable t = true -> t <> [] -> rstrip (s ++ t) = s ++ t.
Proof.
  intros Hp Hne. destruct t as [|c t] using rev_ind; [done|].
  rewrite forallb_app in Hp. apply andb_true_iff in Hp as [_ Hc].
  cbn in Hc. rewrite andb_true_r in Hc. apply negb_true_iff in Hc.
  rewrite app_assoc. by apply rstrip_snoc.
Qed.

Lemma string_of_uint_printable (d : Decimal.uint) :
  forallb printable (bytes_of_string (NilEmpty.string_of_uint d)) = true.
Proof. induction d; cbn [NilEmpty.string_of_uint]; try done; exact IHd. Qed.

Lemma nilzero_uint_printable (d : Decimal.uint) :
  forallb printable (bytes_of_string (NilZero.string_of_uint d)) = true
  /\ bytes_of_string (NilZero.string_of_uint d) <> [].
Proof.
  destruct d; (split; [first [done | exact (string_of_uint_printable _)] | done]).
Qed.

(** The decimal writing of an integer is not empty and has no whitespace. *)
Lemma str_of_int_printable (z : Z) :
  forallb printable (str_of_int z) = true /\ str_of_int z <> [].
Proof.
  unfold str_of_int.
  destruct (Z.to_int z) as [d|d]; cbn [NilZero.string_of_int].
  - apply nilzero_uint_printable.
  - destruct (nilzero_uint_printable d) as [H _]. split; [|done].
    exact H.
Qed.

Lemma split_on_head (sep : char) (s : str) :
  forall cur a rest, split_on sep cur s = a :: rest -> exists tl, cur ++ s = a ++ tl.
Proof.
  induction s as [|c r IH]; intros cur a rest H; cbn [split_on] in H.
  - injection H as <- _. by exists [].
  - destruct (c =? sep).
    + injection H as <- _. by exists (c :: r).
    + destruct (IH _ _ _ H) as [tl E]. exists tl. rewrite <- E. by rewrite <- app_assoc.
Qed.

Lemma join_snoc (sep : str) (parts : list str) (p : str) :
  parts <> [] -> join sep (parts ++ [p]) = join sep parts ++ sep ++ p.
Proof.
  induction parts as [|a rest IH]; [done|]. intros _.
  destruct rest as [|b rest'].
  - done.
  - change (join sep ((a :: b :: rest') ++ [p]))
      with (a ++ sep ++ join sep ((b :: rest') ++ [p])).
    rewrite IH by done.
    change (join sep (a :: b :: rest')) with (a ++ sep ++ join sep (b :: rest')).
    by rewrite <- !app_assoc.
Qed.

(** ** [send_text] *)

Lemma concat_send_text_loop (lines : list str) :
  forall msg n,
    concat (send_text_loop msg n lines)
    = match lines with [] => [] | _ => msg ++ concat lines end.
Proof.
  induction lines as [|line rest IH]; intros msg n; [done|].
  cbn [send_text_loop].
  destruct rest as [|next rest'].
  - simpl. by rewrite !app_nil_r.
  - destruct (_ <? _)%nat.
    + cbn [concat]. rewrite IH. simpl. by rewrite <- app_assoc.
    + rewrite IH. simpl. by rewrite <- !app_assoc.
Qed.

Lemma concat_send_text_chunks (text : str) :
  concat (send_text_chunks text) = rstrip text.
Proof.
  unfold send_text_chunks. rewrite concat_send_text_loop.
  pose proof (concat_splitlines (rstrip text)) as H.
  destruct (splitlines (rstrip text)); [done|]. by rewrite H.
Qed.

Lemma send_text_loop_short (lines : list str) :
  forall msg n,
    lines <> [] ->
    (n + length (concat lines) <= 500)%nat ->
    send_text_loop msg n lines = [msg ++ concat lines].
Proof.
  induction lines as [|line rest IH]; intros msg n Hne Hlen; [done|].
  cbn [send_text_loop].
  destruct rest as [|next rest'].
  - cbn [concat]. by rewrite app_nil_r.
  - cbn [concat] in Hlen. rewrite !length_app in Hlen. unfold len.
    destruct (Nat.ltb_spec 500 (n + length line + length next)); [lia|].
    rewrite IH; [|done|cbn [concat]; rewrite length_app; lia].
    cbn [concat]. by rewrite <- app_assoc.
Qed.

Lemma send_text_short (text : str) :
  (len text <= 500)%nat -> rstrip text <> [] ->
  send_text_chunks text = [rstrip text].
Proof.
  intros Hlen Hne. unfold send_text_chunks.
  pose proof (concat_splitlines (rstrip text)) as Hc.
  rewrite send_text_loop_short.
  - by rewrite Hc.
  - intros E. rewrite E in Hc. by apply Hne.
  - rewrite Hc. pose proof (rstrip_length text). unfold len in Hlen. lia.
Qed.

(** The loop invariant: the pending segment is empty, or it still fits with
    the line to come. A segment the loop emits is then within the limit or is
    one line by itself. *)
Lemma send_text_loop_bound (lines : list str) :
  forall msg,
    match lines with
    | [] => True
    | line :: _ => msg = [] \/ (len msg + len line <= 500)%nat
    end ->
    forall c, c ∈ send_text_loop msg (len msg) lines ->
              (len c <= 500)%nat \/ c ∈ lines.
Proof.
  induction lines as [|line rest IH]; intros msg Hinv c Hc.
  - cbn in Hc. by apply elem_of_nil in Hc.
  - cbn [send_text_loop] in Hc.
    assert (Hlast : (len (msg ++ line) <= 500)%nat \/ msg ++ line = line).
    { destruct Hinv as [-> | H]; [by right|left].
      unfold len in *. rewrite length_app. lia. }
    replace (len msg + len line)%nat with (len (msg ++ line)) in Hc
      by (unfold len; by rewrite length_app).
    destruct rest as [|next rest'].
    + apply list_elem_of_singleton in Hc. subst c.
      destruct Hlast as [H | ->]; [by left|right; apply list_elem_of_here].
    + destruct (Nat.ltb_spec 500 (len (msg ++ line) + len next)).
      * apply elem_of_cons in Hc. destruct Hc as [-> | Hc].
        -- destruct Hlast as [H' | ->]; [by left|right; apply list_elem_of_here].
        -- destruct (IH [] (or_introl eq_refl) c Hc) as [H' | H']; [by left|].
           right. by apply list_elem_of_further.
      * destruct (IH (msg ++ line) (or_intror H) c Hc) as [H' | H']; [by left|].
        right. by apply list_elem_of_further.
Qed.

Lemma send_text_bound (text : str) (c : str) :
  c ∈ send_text_chunks text -> (500 < len c)%nat -> c ∈ splitlines (rstrip text).
Proof.
  intros Hc Hbig. unfold send_text_chunks in Hc.
  destruct (send_text_loop_bound (splitlines (rstrip text)) []) with (c := c)
    as [H | H]; try done.
  - by destruct (splitlines _); [|left].
  - lia.
Qed.

Lemma send_text_bound_input (text c : str) :
  c ∈ send_text_chunks text -> (500 < len c)%nat ->
  exists l, l ∈ splitlines text /\ c `prefix_of` l.
Proof.
  intros Hc Hbig. apply send_text_bound in Hc; [|done].
  destruct (rstrip_split text) as [ws [E _]].
  unfold splitlines in *.
  destruct (splitlines_go_prefix (length (rstrip text)) (rstrip text) [] ws c)
    as (l & Hl & Hp); [lia|apply rstrip_open_ended|done|].
  rewrite <- E in Hl. by exists l.
Qed.

Lemma send_text_one_line (text : str) :
  text <> [] -> no_linebreak text = true -> rstrip text = text ->
  send_text_chunks text = [text].
Proof.
  intros Hne Hnl Hr. unfold send_text_chunks, splitlines. rewrite Hr.
  rewrite splitlines_go_no_linebreak by done. cbn [app].
  destruct text; [done|]. cbn [send_text_loop]. done.
Qed.

(** What [send_text] does is to send its segments, one frame each. *)
Lemma send_text_trace (text : str) :
  send_text text = (SendGroupMsg <$> send_text_chunks text, Next tt).
Proof.
  unfold send_text. induction (send_text_chunks text) as [|c l IH]; [done|].
  cbn [foldr]. by rewrite IH.
Qed.

(** C6 as stated fails on a text that ends in whitespace: for "a" followed by
    a line feed the one segment sent is "a"; and a text of whitespace only is
    within the limit and sends no segment at all. *)
Lemma C6_counterexample :
  send_text_chunks [0x61; 0x0A] = [[0x61]]
  /\ concat (send_text_chunks [0x61; 0x0A]) <> [0x61; 0x0A]
  /\ send_text_chunks [0x20; 0x0A] = [].
Proof. split; [reflexivity|split; [vm_compute; discriminate|reflexivity]]. Qed.

(** C6, amended: for every text, the segments [send_text] emits, put end to
    end, are the text without its trailing whitespace ([text.rstrip()]); and a
    text within the 500-character limit that is not all whitespace is emitted
    as a single segment. *)
Theorem C6_chunks_round_trip (text : str) :
  concat (send_text_chunks text) = rstrip text
  /\ ((len text <= 500)%nat -> rstrip text <> [] ->
      send_text_chunks text = [rstrip text]).
Proof. split; [apply concat_send_text_chunks|apply send_text_short]. Qed.

Lemma C6_chunks_round_trip_witness :
  send_text_chunks (lit "pong!!") = [rstrip (lit "pong!!")].
Proof.
  apply (proj2 (C6_chunks_round_trip (lit "pong!!"))).
  - vm_compute. lia.
  - vm_compute. discriminate.
Defined.

(** C7 as stated fails on a 1200-character text without a newline that ends
    in a space: the segment sent has 1199 characters. *)
Lemma C7_counterexample :
  len (replicate 1199 0x61 ++ [0x20]) = 1200%nat
  /\ no_linebreak (replicate 1199 0x61 ++ [0x20]) = true
  /\ send_text_chunks (replicate 1199 0x61 ++ [0x20]) = [replicate 1199 0x61].
Proof. repeat split; vm_compute; reflexivity. Qed.

(** C7, amended: no segment exceeds 500 characters unless a single input
    line itself exceeds 500 characters: a longer segment is one line of the
    stripped text by itself, and the start of a line of the input that is
    longer than 500 characters. And a 1200-character text with no line
    boundary and no trailing whitespace is emitted as exactly one segment,
    the text itself. *)
Theorem C7_chunk_bound (text : str) :
  (forall c, c ∈ send_text_chunks text -> (500 < len c)%nat ->
     c ∈ splitlines (rstrip text)
     /\ exists line, line ∈ splitlines text /\ c `prefix_of` line
                      /\ (500 < len line)%nat)
  /\ (len text = 1200%nat -> no_linebreak text = true -> rstrip text = text ->
      send_text_chunks text = [text]).
Proof.
  split.
  - intros c Hc Hbig. split; [by apply send_text_bound|].
    destruct (send_text_bound_input text c Hc Hbig) as (line & Hl & Hp).
    exists line. split; [done|split; [done|]].
    apply prefix_length in Hp. unfold len in *. lia.
  - intros Hlen Hnl Hr. apply send_text_one_line; try done.
    intros ->. cbn in Hlen. lia.
Qed.

Lemma C7_chunk_bound_witness :
  send_text_chunks (replicate 1200 0x61) = [replicate 1200 0x61].
Proof.
  apply (proj2 (C7_chunk_bound (replicate 1200 0x61))).
  - vm_compute. reflexivity.
  - vm_compute. reflexivity.
  - vm_compute. reflexivity.
Defined.

(** ** [on_message] *)

(** For a group text of an allowed sender the handler is the dispatch of
    the text inside the [try]. *)
Lemma on_message_group_text rt cfg w data uid raw :
  chatClient_set w = true ->
  group_text rt cfg data uid raw ->
  qq_allowed cfg uid = true ->
  on_message rt cfg w (Some data)
  = try_except (dispatch rt cfg w data uid raw)
               (emit (LogException (lit "Error in on_message()"))).
Proof.
  intros Hc (o & g & u & -> & Hpt & Hmt & Han & Hg & Hgid & Hraw & Hu & Hint) Hal.
  unfold on_message, on_message_body. rewrite Hc. cbn [negb].
  rewrite bind_mret. cbn [dict_get]. rewrite !bind_mret, Hpt, Hmt.
  cbn [eq_str]. rewrite !str_eqb_refl. cbn [andb].
  unfold group_message. cbn [subscript].
  rewrite Han, bind_mret. cbn [is_None].
  rewrite Hg, bind_mret, Hgid, Hraw, bind_mret. cbn [as_str].
  rewrite bind_mret, Hu, bind_mret, Hint, bind_mret.
  f_equal. unfold dispatch. unfold qq_allowed in Hal.
  destruct (qq_whitelist cfg); destruct (bool_decide _); try done;
    cbn [negb]; by rewrite bind_pass.
Qed.

Lemma dispatch_gate_returned rt cfg w data uid raw :
  returned (privileged_gate rt cfg w uid raw) = true ->
  dispatch rt cfg w data uid raw = privileged_gate rt cfg w uid raw.
Proof.
  intros H. unfold dispatch. rewrite bind_returned by done.
  destruct (privileged_gate rt cfg w uid raw) as [tr [a| |e]]; done.
Qed.

Lemma forward_or_notice_returned (b : bool) (a : action) (text : str) :
  returned (A := unit) ((if b then emit a else send_text text) ;; py_return) = true.
Proof. destruct b; [done|]. by rewrite send_text_trace. Qed.

Lemma notice_returned (text : str) :
  returned (A := unit) (send_text text ;; py_return) = true.
Proof. by rewrite send_text_trace. Qed.

Lemma gate_returned rt cfg w uid raw cmd0 cmd1 cmd2 more :
  startswith (strip raw) (lit "#") = true ->
  split_ws (strip (tail1 raw)) 2 = cmd0 :: cmd1 :: cmd2 :: more ->
  uid ∉ admin cfg \/ cmd0 = lit "/" \/ cmd0 = lit "!" ->
  returned (privileged_gate rt cfg w uid raw) = true.
Proof.
  intros Hs Hc Hcase. unfold privileged_gate. rewrite Hs, Hc.
  destruct (bool_decide (uid ∈ admin cfg)) eqn:Ha.
  - apply bool_decide_eq_true in Ha.
    destruct Hcase as [Hn | [-> | ->]]; [done| |].
    + rewrite str_eqb_refl. apply forward_or_notice_returned.
    + destruct (str_eqb (lit "!") (lit "/")); [apply forward_or_notice_returned|].
      rewrite str_eqb_refl. apply forward_or_notice_returned.
  - cbn [orb].
    repeat match goal with
    | |- returned (if ?b then _ else _) = true => destruct b
    end; first [apply forward_or_notice_returned | apply notice_returned].
Qed.

Lemma gate_admin_raw rt cfg w uid raw cmd1 cmd2 more :
  startswith (strip raw) (lit "#") = true ->
  split_ws (strip (tail1 raw)) 2 = lit "/" :: cmd1 :: cmd2 :: more ->
  uid ∈ admin cfg -> link_online w = true ->
  privileged_gate rt cfg w uid raw
  = ([SendCommand cmd1 cmd2 (Some vanilla_params)], Return).
Proof.
  intros Hs Hc Ha Ho. unfold privileged_gate. rewrite Hs, Hc.
  rewrite (bool_decide_eq_true_2 _ Ha), str_eqb_refl, Ho. done.
Qed.

(** The [elif] of line 93 hangs on the [if] of line 76: for a sender in the
    admin set only '/' and '!' are looked at, and with any other first token
    the gate does nothing and the handler runs on. *)
Lemma admin_line_falls_through rt cfg w uid raw cmd0 cmd1 cmd2 more :
  split_ws (strip (tail1 raw)) 2 = cmd0 :: cmd1 :: cmd2 :: more ->
  uid ∈ admin cfg -> cmd0 <> lit "/" -> cmd0 <> lit "!" ->
  privileged_gate rt cfg w uid raw = pass.
Proof.
  intros Hc Ha H1 H2. unfold privileged_gate. rewrite Hc.
  destruct (startswith _ _); [|done].
  rewrite (bool_decide_eq_true_2 _ Ha).
  unfold str_eqb. by rewrite !bool_decide_eq_false_2.
Qed.

(** C1: the claim holds of the design the code shows at lines 94 and 108,
    where membership of the admin set is tested for both aliases, but not of
    the code. The admin (user 1) who sends [#offline survival Steve] or
    [#whitelist survival Steve] with the link online gets no command
    forwarded and no reply, with the override off or on; an invalid name
    gets no rejection and an offline link no notice. The same lines from
    user 2, not an admin, under the override are served. *)
Theorem C1_admin_alias_falls_through :
  on_message plain_runtime (config false false) (world true true)
             (Some (group_event 1 "#offline survival Steve"))
  = ([], Next tt)
  /\ on_message plain_runtime (config false false) (world true true)
                (Some (group_event 1 "#whitelist survival Steve"))
     = ([], Next tt)
  /\ on_message plain_runtime (config false true) (world true true)
                (Some (group_event 1 "#offline survival Steve"))
     = ([], Next tt)
  /\ on_message plain_runtime (config false false) (world true true)
                (Some (group_event 1 "#offline survival St-eve"))
     = ([], Next tt)
  /\ on_message plain_runtime (config false false) (world true false)
                (Some (group_event 1 "#offline survival Steve"))
     = ([], Next tt)
  /\ on_message plain_runtime (config false true) (world true true)
                (Some (group_event 2 "#offline survival Steve"))
     = ([SendCommand (lit "survival") (lit "auth addToForcedOffline Steve")
                     (Some vanilla_params)], Return)
  /\ on_message plain_runtime (config false true) (world true true)
                (Some (group_event 2 "#offline survival St-eve"))
     = ([SendGroupMsg msg_bad_username], Return)
  /\ on_message plain_runtime (config false true) (world true false)
                (Some (group_event 2 "#offline survival Steve"))
     = ([SendGroupMsg msg_offline], Return).
Proof. repeat split; vm_compute; reflexivity. Qed.

(** C2 as stated fails on its own scenario: for the admin's
    [# target 10 2] with the link online the gate does not return, the
    handler sends nothing, and with the automatic relay on the line goes out
    as chat text. *)
Lemma C2_counterexample :
  split_ws (strip (tail1 (lit "# target 10 2"))) 2 = [lit "target"; lit "10"; lit "2"]
  /\ returned (privileged_gate plain_runtime (config false false) (world true true)
                               1 (lit "# target 10 2")) = false
  /\ on_message plain_runtime (config false false) (world true true)
                (Some (group_event 1 "# target 10 2"))
     = ([], Next tt)
  /\ on_message plain_runtime (config true false) (world true true)
                (Some (group_event 1 "# target 10 2"))
     = ([SendChat (lit "# target 10 2") (JStr (lit "Alex"))], Next tt).
Proof. repeat split; vm_compute; reflexivity. Qed.

(** C2, amended: for every group message that starts with '#' and splits
    into three parts, sent by someone outside the admin set, or by an admin
    with '/' or '!' as first part, the handler returns from the privileged
    gate: what it does is what the gate does, and nothing after the gate
    runs. When an admin sends [#/ target 10 2] and the link is online, the
    raw command [10 2] goes to client [target] with parameters IsQQ=True,
    Type=Vanilla. *)
Theorem C2_privileged_line_returns rt cfg w data uid raw cmd0 cmd1 cmd2 more :
  chatClient_set w = true ->
  group_text rt cfg data uid raw ->
  qq_allowed cfg uid = true ->
  startswith (strip raw) (lit "#") = true ->
  split_ws (strip (tail1 raw)) 2 = cmd0 :: cmd1 :: cmd2 :: more ->
  uid ∉ admin cfg \/ cmd0 = lit "/" \/ cmd0 = lit "!" ->
  on_message rt cfg w (Some data) = privileged_gate rt cfg w uid raw
  /\ returned (privileged_gate rt cfg w uid raw) = true
  /\ (uid ∈ admin cfg -> cmd0 = lit "/" -> link_online w = true ->
      on_message rt cfg w (Some data)
      = ([SendCommand cmd1 cmd2 (Some vanilla_params)], Return)).
Proof.
  intros Hw Hd Hal Hs Hc Hcase.
  pose proof (gate_returned rt cfg w uid raw _ _ _ _ Hs Hc Hcase) as Hr.
  assert (E : on_message rt cfg w (Some data) = privileged_gate rt cfg w uid raw).
  { rewrite (on_message_group_text rt cfg w data uid raw) by done.
    rewrite dispatch_gate_returned by done.
    rewrite try_except_returned by done.
    destruct (privileged_gate rt cfg w uid raw) as [tr [a| |e]]; done. }
  split; [done|split; [done|]].
  intros Ha -> Ho. rewrite E. by apply (gate_admin_raw rt cfg w uid raw cmd1 cmd2 more).
Qed.

Lemma C2_privileged_line_returns_witness :
  on_message plain_runtime (config false false) (world true true)
             (Some (group_event 1 "#/ target 10 2"))
  = ([SendCommand (lit "target") (lit "10 2") (Some vanilla_params)], Return).
Proof.
  refine (proj2 (proj2 (C2_privileged_line_returns plain_runtime (config false false)
    (world true true) (group_event 1 "#/ target 10 2") 1 (lit "#/ target 10 2")
    (lit "/") (lit "target") (lit "10 2") [] _ _ _ _ _ _)) _ _ _).
  - reflexivity.
  - eexists _, _, _. repeat split; vm_compute; reflexivity.
  - reflexivity.
  - reflexivity.
  - reflexivity.
  - right. left. reflexivity.
  - vm_compute. apply list_elem_of_here.
  - reflexivity.
  - reflexivity.
Defined.

(** C5: line 153 tests [chatClient.is_online], the method, where the other
    paths call it. With the link offline a well-formed [!!stats] line is
    forwarded, and the offline notice of line 158 is never sent; [!!online]
    and [!!killbot] in the same state answer with the notice. *)
Theorem C5_stats_ignores_link_state :
  on_message plain_runtime (config false false) (world true false)
             (Some (group_event 2 "!!stats used diamond_pickaxe"))
  = ([SendCommand (lit "survival") (lit "!!stats rank used diamond_pickaxe") None],
     Return)
  /\ on_message plain_runtime (config false false) (world true false)
                (Some (group_event 2 "!!online"))
     = ([SendGroupMsg msg_offline], Return)
  /\ on_message plain_runtime (config false false) (world true false)
                (Some (group_event 2 "!!killbot survival bot_1"))
     = ([SendGroupMsg msg_offline], Return).
Proof. repeat split; vm_compute; reflexivity. Qed.

Lemma gate_skips_stats rt cfg w uid raw rest :
  split raw space = lit "!!stats" :: rest ->
  privileged_gate rt cfg w uid raw = pass.
Proof.
  intros H. destruct (split_on_head _ _ _ _ _ H) as [tl E].
  cbn [app] in E. subst raw. unfold privileged_gate.
  replace (startswith (strip (lit "!!stats" ++ tl)) (lit "#")) with false; [done|].
  unfold strip. change (lstrip (lit "!!stats" ++ tl)) with (lit "!!stats" ++ tl).
  destruct (rstrip_head (lit "!!stats" ++ tl)) as [-> | Hh]; [done|].
  destruct (rstrip (lit "!!stats" ++ tl)) as [|c r]; [done|].
  cbn in Hh. injection Hh as ->. done.
Qed.

Lemma fixed_commands_skip_stats cfg w rest :
  fixed_commands cfg w (lit "!!stats" :: rest) = pass.
Proof. by destruct rest. Qed.

Lemma stats_command_run cfg rest :
  stats_command cfg (lit "!!stats" :: rest)
  = if stats_arity (lit "!!stats" :: rest)
    then ([SendCommand (client_to_query_stats cfg)
                       (lit "!!stats rank " ++ join [space] rest) None], Return)
    else ([SendGroupMsg StatsHelpMessage], Return).
Proof.
  unfold stats_command, stats_arity. rewrite str_eqb_refl.
  cbn [drop length]. rewrite bool_decide_eq_false_2 by done. cbn [orb].
  by destruct (_ =? 3)%Z.
Qed.

(** C8 as stated fails on [!!stats used x-bot y]: four tokens, none of them
    the flag, and the command is forwarded. It fails the other way on
    [!!stats  used x], with two spaces: three whitespace tokens, and the
    sender gets the usage text, the empty field between the spaces being
    counted. *)
Lemma C8_counterexample :
  split (lit "!!stats used x-bot y") space
  = [lit "!!stats"; lit "used"; lit "x-bot"; lit "y"]
  /\ stats_arity_spec (split (lit "!!stats used x-bot y") space) = false
  /\ on_message plain_runtime (config false false) (world true true)
                (Some (group_event 2 "!!stats used x-bot y"))
     = ([SendCommand (lit "survival") (lit "!!stats rank used x-bot y") None], Return)
  /\ split_ws (lit "!!stats  used x") 3 = [lit "!!stats"; lit "used"; lit "x"]
  /\ stats_arity_spec (split_ws (lit "!!stats  used x") 3) = true
  /\ on_message plain_runtime (config false false) (world true true)
                (Some (group_event 2 "!!stats  used x"))
     = ([SendGroupMsg StatsHelpMessage], Return).
Proof. repeat split; vm_compute; reflexivity. Qed.

(** C8, amended: for every group message of an allowed sender whose first
    space-separated field is [!!stats], the arity test is the one of line
    150: the number of fields, less one when the text [-bot] occurs anywhere
    in the rebuilt command, is 3. When it fails the sender receives the stats
    usage text and nothing is forwarded; when it holds, and the link is
    online, the rebuilt command is forwarded to the stats client and nothing
    is sent to the chat room. *)
Theorem C8_stats_arity rt cfg w data uid raw rest :
  chatClient_set w = true ->
  group_text rt cfg data uid raw ->
  qq_allowed cfg uid = true ->
  split raw space = lit "!!stats" :: rest ->
  (stats_arity (split raw space) = false ->
   on_message rt cfg w (Some data) = ([SendGroupMsg StatsHelpMessage], Return))
  /\ (stats_arity (split raw space) = true -> link_online w = true ->
      on_message rt cfg w (Some data)
      = ([SendCommand (client_to_query_stats cfg)
                      (lit "!!stats rank " ++ join [space] rest) None], Return)).
Proof.
  intros Hw Hd Hal Hs.
  rewrite (on_message_group_text rt cfg w data uid raw) by done.
  unfold dispatch. rewrite (gate_skips_stats rt cfg w uid raw rest Hs), bind_pass.
  rewrite Hs, fixed_commands_skip_stats, bind_pass, stats_command_run.
  split; [intros -> | intros -> _]; done.
Qed.

Lemma C8_stats_arity_witness :
  on_message plain_runtime (config false false) (world true true)
             (Some (group_event 2 "!!stats used diamond_pickaxe -bot"))
  = ([SendCommand (lit "survival") (lit "!!stats rank used diamond_pickaxe -bot") None],
     Return).
Proof.
  refine (proj2 (C8_stats_arity plain_runtime (config false false) (world true true)
           (group_event 2 "!!stats used diamond_pickaxe -bot") 2
           (lit "!!stats used diamond_pickaxe -bot")
           [lit "used"; lit "diamond_pickaxe"; lit "-bot"] _ _ _ _) _ _).
  - reflexivity.
  - eexists _, _, _. repeat split; vm_compute; reflexivity.
  - reflexivity.
  - reflexivity.
  - reflexivity.
  - reflexivity.
Defined.

(** ** [on_command] and the error boundary *)

(** C3 as stated fails on the answer to [!!online]: it has no [IsQQ]
    parameter and the player list is sent to the chat room. So is a stats
    table. *)
Lemma C3_counterexample :
  params online_reply !! "IsQQ" = None
  /\ responded online_reply = true
  /\ group_msgs (trace (on_command plain_runtime (world true true) (lit "survival")
                                   online_reply))
     = [msg_player_list ++ newline ++ lit "Steve" ++ newline ++ lit "Alex"]
  /\ params (stats_reply true 0) !! "IsQQ" = None
  /\ group_msgs (trace (on_command plain_runtime (world true true) (lit "survival")
                                   (stats_reply true 0)))
     <> [].
Proof. repeat split; vm_compute; (reflexivity || discriminate). Qed.

(** C3, amended: a responded result without the [IsQQ] marker whose command
    neither starts with [!!stats ] nor is [!!online] produces no chat-room
    message; the result of [!!online] is rendered, as the header line and
    the player names one per line, whether or not it has the marker. *)
Theorem C3_unmarked_result rt w sender payload :
  responded payload = true ->
  (truthy (params payload !! "IsQQ") = false ->
   startswith (command payload) (lit "!!stats ") = false ->
   command payload <> lit "!!online" ->
   on_command rt w sender payload = ([], Next tt))
  /\ (forall r, command payload = lit "!!online" ->
        cq_bot_set w = true ->
        deserialize_online rt (result payload) = inr r ->
        on_command rt w sender payload
        = send_text (lit "====== 玩家列表 ======" ++ [0x0A]
                     ++ join [0x0A] (online_data r))).
Proof.
  intros Hr. unfold on_command. rewrite Hr. cbn [negb]. split.
  - intros Hp Hs Ho. rewrite Hs, Hp. unfold str_eqb.
    by rewrite bool_decide_eq_false_2.
  - intros r Ho Hb Hd. rewrite Ho.
    change (startswith (lit "!!online") (lit "!!stats ")) with false.
    rewrite str_eqb_refl, Hd. cbn [deserialized].
    rewrite bind_mret. unfold cq_bot_send_text. by rewrite Hb.
Qed.

Lemma C3_unmarked_result_witness :
  on_command plain_runtime (world true true) (lit "survival") foreign_reply
  = ([], Next tt)
  /\ on_command plain_runtime (world true true) (lit "survival")
                {| command := lit "!!online"; responded := true;
                   params := {[ "IsQQ" := JBool true ]};
                   result := JObj {[ "data" := JArr [JStr (lit "Steve")] ]} |}
     = ([SendGroupMsg (lit "====== 玩家列表 ======
Steve")], Next tt).
Proof.
  split.
  - refine (proj1 (C3_unmarked_result plain_runtime (world true true)
                     (lit "survival") foreign_reply _) _ _ _).
    + reflexivity.
    + reflexivity.
    + reflexivity.
    + vm_compute. discriminate.
  - refine (proj2 (C3_unmarked_result plain_runtime (world true true)
                     (lit "survival") _ _) {| online_data := [lit "Steve"] |} _ _ _);
      reflexivity.
Defined.

Lemma on_message_never_propagates rt cfg w decoded :
  propagates (on_message rt cfg w decoded) = false.
Proof. by apply try_except_safe. Qed.

Lemma on_chat_never_propagates rt cfg w sender payload :
  propagates (on_chat rt cfg w sender payload) = false.
Proof. unfold on_chat. destruct (cq_bot_set w); [by apply try_except_safe|done]. Qed.

(** Without a [try] in [on_command], what a deserializer raises leaves the
    handler. *)
Lemma on_command_deserializer_raises rt w sender payload e :
  responded payload = true ->
  command payload = lit "!!online" ->
  deserialize_online rt (result payload) = inl e ->
  on_command rt w sender payload = ([], Raise e).
Proof.
  intros Hr Hc Hd. unfold on_command. rewrite Hr, Hc, Hd. done.
Qed.

(** C4: [on_message] and [on_chat] catch everything at their [try], and
    [on_chat] returns at once while [cq_bot] is unset; [on_command] has no
    [try] and no such test. The answer to [!!online] that arrives while
    [cq_bot] is still unset leaves [on_command] as an AttributeError. *)
Theorem C4_on_command_propagates :
  (forall rt cfg w decoded, propagates (on_message rt cfg w decoded) = false)
  /\ (forall rt cfg w sender payload,
        propagates (on_chat rt cfg w sender payload) = false)
  /\ on_command plain_runtime (world false true) (lit "survival") online_reply
     = ([], Raise AttributeError).
Proof.
  split; [apply on_message_never_propagates|].
  split; [apply on_chat_never_propagates|].
  vm_compute. reflexivity.
Qed.

Lemma rstrip_footer (s : str) (z : Z) :
  rstrip (s ++ str_of_int z) = s ++ str_of_int z.
Proof. destruct (str_of_int_printable z). by apply rstrip_printable_end. Qed.

Lemma stats_table_rstrip (r : StatsQueryResult) :
  rstrip (stats_table r) = stats_table r.
Proof.
  unfold stats_table. rewrite app_assoc, join_snoc by done.
  rewrite !app_assoc. apply rstrip_footer.
Qed.

Lemma join_rows (rows : list str) (footer : str) :
  join [0x0A] (rows ++ [footer])
  = concat ((fun row => row ++ [0x0A]) <$> rows) ++ footer.
Proof.
  induction rows as [|row rest IH]; [done|].
  cbn [app fmap list_fmap concat]. rewrite <- app_assoc. cbn [app].
  rewrite <- IH.
  destruct rest; cbn [app join]; by rewrite <- app_assoc.
Qed.

Lemma join_head (sep head : str) (rest : list str) :
  rest <> [] -> join sep (head :: rest) = head ++ sep ++ join sep rest.
Proof. by destruct rest. Qed.

(** The table of lines 287-290, written out: the header line, every data
    row on a line of its own, and the total as the last line. *)
Lemma stats_table_written_out (r : StatsQueryResult) :
  stats_table r
  = (lit "====== " ++ stats_name r ++ lit " ======") ++ [0x0A]
    ++ concat ((fun row => row ++ [0x0A]) <$> stats_data r)
    ++ lit "总数：" ++ str_of_int (total r).
Proof.
  unfold stats_table. cbn zeta.
  change ([lit "====== " ++ stats_name r ++ lit " ======"] ++ stats_data r
          ++ [msg_total ++ str_of_int (total r)])
    with ((lit "====== " ++ stats_name r ++ lit " ======")
          :: (stats_data r ++ [msg_total ++ str_of_int (total r)])).
  rewrite join_head by (by destruct (stats_data r)).
  change newline with [0x0A]. by rewrite join_rows.
Qed.

(** C9: a responded stats result that carries success reaches the chat room
    as the header "====== <stats name> ======", then each data row, then the
    footer "总数：<total>", every one on a line of its own: the segments sent
    are those of [send_text] on that text, and put end to end they are that
    text. With [success] false and error code 1 the chat room receives
    exactly "统计信息未找到", with error code 2 exactly
    "StatsHelper 插件未加载". *)
Theorem C9_stats_result_rendered rt w sender payload r :
  cq_bot_set w = true ->
  responded payload = true ->
  startswith (command payload) (lit "!!stats ") = true ->
  deserialize_stats rt (result payload) = inr r ->
  (stats_success r = true ->
     let text :=
       (lit "====== " ++ stats_name r ++ lit " ======") ++ [0x0A]
       ++ concat ((fun row => row ++ [0x0A]) <$> stats_data r)
       ++ lit "总数：" ++ str_of_int (total r) in
     on_command rt w sender payload
     = (SendGroupMsg <$> send_text_chunks text, Next tt)
     /\ concat (group_msgs (trace (on_command rt w sender payload))) = text)
  /\ (stats_success r = false -> error_code r = Some 1%Z ->
      on_command rt w sender payload
      = ([SendGroupMsg (lit "统计信息未找到")], Next tt))
  /\ (stats_success r = false -> error_code r = Some 2%Z ->
      on_command rt w sender payload
      = ([SendGroupMsg (lit "StatsHelper 插件未加载")], Next tt)).
Proof.
  intros Hb Hr Hs Hd. unfold on_command, cq_bot_send_text.
  rewrite Hr, Hs, Hd, Hb. cbn [negb deserialized]. rewrite bind_mret.
  split; [|split].
  - intros ->. cbn zeta. rewrite send_text_trace.
    rewrite <- stats_table_written_out. split; [done|].
    unfold trace. cbn [fst].
    rewrite group_msgs_sends, concat_send_text_chunks. apply stats_table_rstrip.
  - intros -> ->. done.
  - intros -> ->. done.
Qed.

Lemma C9_stats_result_rendered_witness :
  on_command plain_runtime (world true true) (lit "survival") (stats_reply true 0)
  = ([SendGroupMsg (lit "====== used.diamond_pickaxe ======
#1 Steve 12
#2 Alex 7
总数：19")], Next tt)
  /\ on_command plain_runtime (world true true) (lit "survival") (stats_reply false 1)
     = ([SendGroupMsg (lit "统计信息未找到")], Next tt)
  /\ on_command plain_runtime (world true true) (lit "survival") (stats_reply false 2)
     = ([SendGroupMsg (lit "StatsHelper 插件未加载")], Next tt).
Proof.
  split; [|split].
  - refine (proj1 (proj1 (C9_stats_result_rendered plain_runtime (world true true)
              (lit "survival") (stats_reply true 0)
              {| stats_success := true; stats_name := lit "used.diamond_pickaxe";
                 stats_data := [lit "#1 Steve 12"; lit "#2 Alex 7"];
                 total := 19; error_code := Some 0%Z |} _ _ _ _) _));
      reflexivity.
  - refine (proj1 (proj2 (C9_stats_result_rendered plain_runtime (world true true)
              (lit "survival") (stats_reply false 1)
              {| stats_success := false; stats_name := lit "used.diamond_pickaxe";
                 stats_data := [lit "#1 Steve 12"; lit "#2 Alex 7"];
                 total := 19; error_code := Some 1%Z |} _ _ _ _)) _ _);
      reflexivity.
  - refine (proj2 (proj2 (C9_stats_result_rendered plain_runtime (world true true)
              (lit "survival") (stats_reply false 2)
              {| stats_success := false; stats_name := lit "used.diamond_pickaxe";
                 stats_data := [lit "#1 Steve 12"; lit "#2 Alex 7"];
                 total := 19; error_code := Some 2%Z |} _ _ _ _)) _ _);
      reflexivity.
Defined.

(** C10: a payload whose [responded] flag is false makes [on_command] return
    at once, with nothing sent, whatever its command, parameters and result,
    and whether or not [cq_bot] is set. *)
Theorem C10_unanswered_command_silent rt w sender payload :
  responded payload = false -> on_command rt w sender payload = ([], Return).
Proof. intros H. unfold on_command. by rewrite H. Qed.

Lemma C10_unanswered_command_silent_witness :
  on_command plain_runtime (world false false) (lit "survival") pending_command
  = ([], Return).
Proof. apply C10_unanswered_command_silent. reflexivity. Defined.

(** * Further properties of the handlers *)

(** ** The segments of [send_text] *)

Lemma splitlines_go_lines (n : nat) :
  forall (s cur : str), (length s <= n)%nat ->
    Forall (fun l => l <> []) (splitlines_go cur s)
    /\ all_but_last ends_line (splitlines_go cur s).
Proof.
  induction n as [|n IH]; intros s cur Hn.
  - destruct s; [|cbn in Hn; lia]. cbn [splitlines_go].
    destruct cur; [done|]. split; [|done]. by constructor.
  - destruct s as [|c r].
    { apply (IH [] cur). cbn. lia. }
    cbn [length] in Hn. cbn [splitlines_go].
    assert (Hend : forall x : str, is_linebreak c = true -> ends_line (x ++ [c])).
    { intros x Hc. unfold ends_line. by rewrite last_snoc. }
    destruct (is_linebreak c) eqn:Hc.
    + destruct r as [|c' r'].
      * cbn [splitlines_go]. split; [|done]. constructor; [by destruct cur|done].
      * cbn [length] in Hn.
        destruct ((c =? 13) && (c' =? 10)) eqn:Hcrlf.
        -- destruct (IH r' [] ltac:(lia)) as [H1 H2]. split.
           ++ constructor; [by destruct cur|done].
           ++ cbn [all_but_last]. destruct (splitlines_go [] r'); [done|].
              split; [|done]. unfold ends_line.
              change (cur ++ [c; c']) with (cur ++ [c] ++ [c']).
              rewrite app_assoc, last_snoc.
              apply andb_true_iff in Hcrlf as [_ Hlf]. apply N.eqb_eq in Hlf.
              by subst c'.
        -- destruct (IH (c' :: r') [] ltac:(cbn [length]; lia)) as [H1 H2]. split.
           ++ constructor; [by destruct cur|done].
           ++ cbn [all_but_last]. destruct (splitlines_go [] (c' :: r')); [done|].
              split; [by apply Hend|done].
    + apply IH. lia.
Qed.

Lemma send_text_loop_groups (lines : list str) :
  forall msg, lines <> [] ->
    exists g gs,
      g <> [] /\ Forall (fun g' => g' <> []) gs
      /\ concat (g :: gs) = lines
      /\ send_text_loop msg (len msg) lines = (msg ++ concat g) :: (@concat char <$> gs)
      /\ match gs with
         | (next :: _) :: _ => (500 < len (msg ++ concat g) + len next)%nat
         | _ => True
         end
      /\ closed_when_full gs.
Proof.
  induction lines as [|line rest IH]; intros msg Hne; [done|].
  cbn [send_text_loop].
  replace (len msg + len line)%nat with (len (msg ++ line))
    by (unfold len; by rewrite length_app).
  destruct rest as [|next rest'].
  - exists [line], []. cbn [concat fmap list_fmap]. rewrite !app_nil_r.
    repeat split; done.
  - destruct (Nat.ltb_spec 500 (len (msg ++ line) + len next)) as [Hfull | Hfit].
    + destruct (IH [] ltac:(done)) as (g & gs & Hg & Hgs & Hcat & Hloop & Hfst & Hrest).
      exists [line], (g :: gs). change (len []) with 0%nat in Hloop.
      rewrite Hloop. cbn [concat fmap list_fmap app] in *. rewrite !app_nil_r.
      repeat split; try done.
      * by constructor.
      * by rewrite Hcat.
      * destruct g as [|l0 g0]; [done|]. cbn [concat] in Hcat.
        injection Hcat as <- _. done.
    + destruct (IH (msg ++ line) ltac:(done))
        as (g & gs & Hg & Hgs & Hcat & Hloop & Hfst & Hrest).
      exists (line :: g), gs. rewrite Hloop. cbn [concat app] in *.
      rewrite <- !app_assoc in *. repeat split; try done.
      by rewrite <- Hcat.
Qed.

Lemma send_text_loop_ends (lines : list str) :
  forall msg n,
    Forall (fun l => l <> []) lines -> all_but_last ends_line lines ->
    Forall (fun c => c <> []) (send_text_loop msg n lines)
    /\ all_but_last ends_line (send_text_loop msg n lines).
Proof.
  induction lines as [|line rest IH]; intros msg n Hne Hends; [done|].
  cbn [send_text_loop]. inversion Hne as [|? ? Hline Hrest]; subst.
  assert (Hm : msg ++ line <> []) by (by destruct msg, line).
  destruct rest as [|next rest'].
  - split; [by constructor|done].
  - cbn [all_but_last] in Hends. destruct Hends as [Hl Hr].
    destruct (_ <? _)%nat.
    + destruct (IH [] 0%nat Hrest Hr) as [H1 H2]. split; [by constructor|].
      cbn [all_but_last].
      destruct (send_text_loop [] 0 (next :: rest')); [done|].
      split; [|done]. unfold ends_line in *.
      destruct line as [|c line] using rev_ind; [done|].
      rewrite last_snoc in Hl. by rewrite app_assoc, last_snoc.
    + by apply IH.
Qed.

(** X1: [send_text] never tears a line. The lines of the stripped text fall
    into consecutive groups, none empty, and the segments sent are the groups,
    each joined into one text; a group is closed only when the first line of
    the next one would take it over 500 characters. *)
Theorem send_text_whole_lines (text : str) :
  exists groups : list (list str),
    concat groups = splitlines (rstrip text)
    /\ Forall (fun g => g <> []) groups
    /\ send_text_chunks text = @concat char <$> groups
    /\ closed_when_full groups.
Proof.
  unfold send_text_chunks.
  destruct (splitlines (rstrip text)) as [|l ls] eqn:E.
  - by exists [].
  - destruct (send_text_loop_groups (l :: ls) [] ltac:(done))
      as (g & gs & Hg & Hgs & Hcat & Hloop & Hfst & Hrest).
    exists (g :: gs). change (len []) with 0%nat in Hloop.
    cbn [app] in *. repeat split; try done.
    by constructor.
Qed.

(** X2: no segment sent by [send_text] is empty, and every segment but the
    last ends in a line boundary. *)
Theorem send_text_segments_end_lines (text : str) :
  Forall (fun c => c <> []) (send_text_chunks text)
  /\ all_but_last ends_line (send_text_chunks text).
Proof.
  unfold send_text_chunks, splitlines.
  destruct (splitlines_go_lines (length (rstrip text)) (rstrip text) [] ltac:(lia)).
  by apply send_text_loop_ends.
Qed.

Lemma rstrip_blank (text : str) : forallb isspace text = true -> rstrip text = [].
Proof.
  intros H. unfold rstrip.
  assert (G : forall s : str, forallb isspace s = true -> lstrip s = []).
  { induction s as [|c r IH]; [done|]. cbn [forallb lstrip].
    intros [-> Hr]%andb_true_iff. by apply IH. }
  rewrite G; [done|]. rewrite forallb_forall in *. intros x Hx. apply H.
  by apply in_rev.
Qed.

(** X3: a text of whitespace only, the empty text included, is not sent:
    [send_text] emits no frame for it. *)
Theorem send_text_blank (text : str) :
  forallb isspace text = true -> send_text text = ([], Next tt).
Proof.
  intros H. rewrite send_text_trace. unfold send_text_chunks.
  by rewrite rstrip_blank.
Qed.

Lemma send_text_blank_witness :
  send_text [0x20; 0x0A; 0x3000] = ([], Next tt).
Proof. apply send_text_blank. reflexivity. Defined.

(** ** [on_command] *)

Lemma send_text_one (text : str) :
  send_text_chunks text = [text] -> send_text text = ([SendGroupMsg text], Next tt).
Proof. intros H. by rewrite send_text_trace, H. Qed.

(** X4: the answer to [!!online] is rendered as the header line followed by
    one player name per line, [send_text] taking the trailing whitespace off;
    with no player online the chat room receives the header alone. *)
Theorem on_command_online_list rt w sender payload r :
  cq_bot_set w = true ->
  responded payload = true ->
  command payload = lit "!!online" ->
  deserialize_online rt (result payload) = inr r ->
  concat (group_msgs (trace (on_command rt w sender payload)))
  = rstrip (msg_player_list ++ newline ++ join newline (online_data r))
  /\ (online_data r = [] ->
      on_command rt w sender payload = ([SendGroupMsg msg_player_list], Next tt)).
Proof.
  intros Hb Hr Hc Hd. unfold on_command, cq_bot_send_text.
  rewrite Hr, Hc, Hd, Hb. cbn [negb deserialized].
  change (startswith (lit "!!online") (lit "!!stats ")) with false.
  rewrite str_eqb_refl, bind_mret. split.
  - rewrite send_text_trace. unfold trace. cbn [fst].
    by rewrite group_msgs_sends, concat_send_text_chunks.
  - intros ->. rewrite send_text_trace. vm_compute. reflexivity.
Qed.

Lemma on_command_online_list_witness :
  on_command plain_runtime (world true true) (lit "survival")
             {| command := lit "!!online"; responded := true; params := ∅;
                result := JObj {[ "data" := JArr [] ]} |}
  = ([SendGroupMsg msg_player_list], Next tt).
Proof.
  refine (proj2 (on_command_online_list plain_runtime (world true true)
                   (lit "survival") _ {| online_data := [] |} _ _ _ _) _);
    reflexivity.
Defined.

(** X5: the result of a command issued from the chat room (one that carries
    the [IsQQ] marker and is neither a stats nor an online query) is
    acknowledged with exactly one message: the "executed" text when it
    succeeded, the "server not running" text when it did not. *)
Theorem on_command_ack rt w sender payload r :
  cq_bot_set w = true ->
  responded payload = true ->
  startswith (command payload) (lit "!!stats ") = false ->
  command payload <> lit "!!online" ->
  truthy (params payload !! "IsQQ") = true ->
  deserialize_remote rt (result payload) = inr r ->
  on_command rt w sender payload
  = ([SendGroupMsg (if success r then msg_executed else msg_server_down)], Next tt).
Proof.
  intros Hb Hr Hs Ho Hp Hd. unfold on_command, cq_bot_send_text.
  rewrite Hr, Hs, Hp, Hd, Hb. cbn [negb deserialized].
  unfold str_eqb. rewrite bool_decide_eq_false_2 by done. rewrite bind_mret.
  by destruct (success r); apply send_text_one.
Qed.

Lemma on_command_ack_witness :
  on_command plain_runtime (world true true) (lit "survival")
             {| command := lit "whitelist add Steve"; responded := true;
                params := vanilla_params;
                result := JObj {[ "success" := JBool false ]} |}
  = ([SendGroupMsg msg_server_down], Next tt).
Proof.
  refine (on_command_ack plain_runtime (world true true) (lit "survival") _
            {| success := false |} _ _ _ _ _ _);
    first [reflexivity | vm_compute; discriminate].
Defined.

(** X6: a failed stats result whose error code is neither 1 nor 2 (or is
    absent) is dropped without a word to the chat room, marker or not. *)
Theorem on_command_stats_unknown_error rt w sender payload r :
  responded payload = true ->
  startswith (command payload) (lit "!!stats ") = true ->
  deserialize_stats rt (result payload) = inr r ->
  stats_success r = false ->
  error_code r <> Some 1%Z -> error_code r <> Some 2%Z ->
  on_command rt w sender payload = ([], Next tt).
Proof.
  intros Hr Hs Hd Hf H1 H2. unfold on_command.
  rewrite Hr, Hs, Hd. cbn [negb deserialized]. rewrite bind_mret, Hf.
  by rewrite !bool_decide_eq_false_2.
Qed.

Lemma on_command_stats_unknown_error_witness :
  on_command plain_runtime (world true true) (lit "survival") (stats_reply false 3)
  = ([], Next tt).
Proof.
  refine (on_command_stats_unknown_error plain_runtime (world true true)
            (lit "survival") (stats_reply false 3)
            {| stats_success := false; stats_name := lit "used.diamond_pickaxe";
               stats_data := [lit "#1 Steve 12"; lit "#2 Alex 7"];
               total := 19; error_code := Some 3%Z |} _ _ _ _ _ _);
    first [reflexivity | discriminate].
Defined.

(** ** [on_chat] *)

Lemma mc_access_pass cfg (name : str) {B} (k : M B) :
  mc_allowed cfg name = true ->
  ((if mc_whitelist cfg
    then (if negb (bool_decide (name ∈ mc_list cfg)) then py_return else pass)
    else (if bool_decide (name ∈ mc_list cfg) then py_return else pass)) ;; k) = k.
Proof.
  unfold mc_allowed. intros H.
  destruct (mc_whitelist cfg), (bool_decide (name ∈ mc_list cfg));
    try done; apply bind_pass.
Qed.

Lemma mc_rate_gate_open cfg w {B} (k : M B) :
  (mc_limiter cfg = true -> mc_consume w = true) ->
  (mc_rate_gate cfg w ;; k)
  = (consumed (mc_limiter cfg) "mc" ++ trace k, outcome k).
Proof.
  intros H. unfold mc_rate_gate, consumed. destruct (mc_limiter cfg).
  - rewrite H by done. by destruct k.
  - rewrite bind_pass. by destruct k.
Qed.

Lemma forward_to_group_sent rt cfg sender payload :
  over_cap (mc_max_length cfg) (formatted_str rt payload) = false ->
  forward_to_group rt cfg sender payload
  = (SendGroupMsg
       <$> send_text_chunks (lit "[" ++ sender ++ lit "] " ++ formatted_str rt payload),
     Next tt).
Proof.
  unfold forward_to_group, over_cap, send_message. intros ->.
  apply send_text_trace.
Qed.

(** X7: a remote chat message whose author the access list refuses (not on
    the list in whitelist mode, on it in blacklist mode) is dropped: nothing
    is sent, no token is taken from the limiter, nothing is logged. *)
Theorem on_chat_denied rt cfg w sender payload :
  mc_allowed cfg (author payload) = false ->
  on_chat rt cfg w sender payload = ([], Return).
Proof.
  unfold mc_allowed, on_chat, on_chat_body. intros H.
  destruct (cq_bot_set w); [|done].
  destruct (mc_whitelist cfg), (bool_decide (author payload ∈ mc_list cfg)); done.
Qed.

Lemma on_chat_denied_witness :
  on_chat plain_runtime
          {| react_group_id := 1000; qq_whitelist := false; qq_list := [];
             admin := []; allow_easyauth_offline_reg_for_everyone := false;
             allow_whitelist_for_everyone := false;
             client_to_query_online := []; client_to_query_stats := [];
             qq_to_mc_auto := true; qq_limiter := false; qq_max_length := 0;
             mc_whitelist := true; mc_list := [lit "Steve"]; mc_to_qq_auto := true;
             forward_join_message := true; mc_limiter := true; mc_max_length := 0 |}
          (world true true) (lit "survival")
          {| author := lit "Alex"; message := lit "hello" |}
  = ([], Return).
Proof. apply on_chat_denied. reflexivity. Defined.

(** X8: with the automatic relay on, a remote chat message of an allowed
    author that does not start with [!!], is not a filtered join or leave
    notice, is not throttled and is within the length cap reaches the chat
    room as the segments of "[client] text", where text is the payload's
    formatted string; the limiter, when on, is charged once. *)
Theorem on_chat_auto_forward rt cfg w sender payload :
  cq_bot_set w = true ->
  mc_allowed cfg (author payload) = true ->
  mc_to_qq_auto cfg = true ->
  startswith (strip (message payload)) (lit "!!") = false ->
  forward_join_message cfg = true
    \/ join_leave_match rt (strip (message payload)) = false ->
  (mc_limiter cfg = true -> mc_consume w = true) ->
  over_cap (mc_max_length cfg) (formatted_str rt payload) = false ->
  on_chat rt cfg w sender payload
  = (consumed (mc_limiter cfg) "mc"
     ++ (SendGroupMsg
           <$> send_text_chunks (lit "[" ++ sender ++ lit "] " ++ formatted_str rt payload)),
     Next tt).
Proof.
  intros Hb Ha Hauto Hbang Hjoin Hlim Hcap. unfold on_chat, on_chat_body.
  rewrite Hb. cbn [negb]. rewrite mc_access_pass by done.
  rewrite Hauto, Hbang. cbn [andb negb].
  replace (negb (forward_join_message cfg)
           && join_leave_match rt (strip (message payload))) with false
    by (destruct Hjoin as [-> | ->]; [done|by rewrite andb_false_r]).
  rewrite bind_pass, mc_rate_gate_open by done.
  by rewrite forward_to_group_sent.
Qed.

Lemma on_chat_auto_forward_witness :
  on_chat plain_runtime
          {| react_group_id := 1000; qq_whitelist := false; qq_list := [];
             admin := []; allow_easyauth_offline_reg_for_everyone := false;
             allow_whitelist_for_everyone := false;
             client_to_query_online := []; client_to_query_stats := [];
             qq_to_mc_auto := true; qq_limiter := false; qq_max_length := 0;
             mc_whitelist := false; mc_list := []; mc_to_qq_auto := true;
             forward_join_message := true; mc_limiter := true; mc_max_length := 0 |}
          (world true true) (lit "survival")
          {| author := lit "Steve"; message := lit "hello" |}
  = ([Consume (lit "mc"); SendGroupMsg (lit "[survival] <Steve> hello")], Next tt).
Proof.
  refine (on_chat_auto_forward plain_runtime _ (world true true) (lit "survival")
            {| author := lit "Steve"; message := lit "hello" |} _ _ _ _ _ _ _);
    first [reflexivity | by left].
Defined.

Lemma strip_keeps_bangs (rest : str) :
  startswith (strip (lit "!!qq " ++ rest)) (lit "!!") = true.
Proof.
  change (lit "!!qq " ++ rest) with (33 :: 33 :: 113 :: 113 :: 32 :: rest).
  unfold strip.
  change (lstrip (33 :: 33 :: 113 :: 113 :: 32 :: rest))
    with (33 :: 33 :: 113 :: 113 :: 32 :: rest).
  destruct (rstrip_split (33 :: 33 :: 113 :: 113 :: 32 :: rest)) as [ws [E F]].
  destruct (rstrip (33 :: 33 :: 113 :: 113 :: 32 :: rest)) as [|a [|b r]].
  - cbn [app] in E. rewrite <- E in F. done.
  - cbn [app] in E. injection E as _ E. rewrite <- E in F. done.
  - cbn [app] in E. injection E as <- <- _. by destruct r.
Qed.

(** X9: a remote chat message "!!qq text" of an allowed author is relayed
    with the trigger taken off, whether the automatic relay is on or off:
    the chat room receives the segments of "[client] " followed by the
    formatted string of the payload with [text] as its message. *)
Theorem on_chat_explicit_relay rt cfg w sender payload rest :
  cq_bot_set w = true ->
  mc_allowed cfg (author payload) = true ->
  message payload = lit "!!qq " ++ rest ->
  (mc_limiter cfg = true -> mc_consume w = true) ->
  over_cap (mc_max_length cfg)
           (formatted_str rt {| author := author payload; message := rest |}) = false ->
  on_chat rt cfg w sender payload
  = (consumed (mc_limiter cfg) "mc"
     ++ (SendGroupMsg
           <$> send_text_chunks
                 (lit "[" ++ sender ++ lit "] "
                  ++ formatted_str rt {| author := author payload; message := rest |})),
     Next tt).
Proof.
  intros Hb Ha Hm Hlim Hcap. unfold on_chat, on_chat_body.
  rewrite Hb. cbn [negb]. rewrite mc_access_pass by done.
  rewrite Hm, strip_keeps_bangs. cbn [negb]. rewrite andb_false_r.
  change (split1 (lit "!!qq " ++ rest) space) with [lit "!!qq"; rest].
  cbv beta iota. rewrite str_eqb_refl, mc_rate_gate_open by done.
  by rewrite forward_to_group_sent.
Qed.

Lemma on_chat_explicit_relay_witness :
  on_chat plain_runtime (config false false) (world true true) (lit "survival")
          {| author := lit "Steve"; message := lit "!!qq hello" |}
  = ([SendGroupMsg (lit "[survival] <Steve> hello")], Next tt).
Proof.
  refine (on_chat_explicit_relay plain_runtime (config false false) (world true true)
            (lit "survival") {| author := lit "Steve"; message := lit "!!qq hello" |}
            (lit "hello") _ _ _ _ _);
    first [reflexivity | discriminate].
Defined.

Lemma mc_rate_gate_throttled cfg w {B} (k : M B) :
  mc_limiter cfg = true -> mc_consume w = false ->
  (mc_rate_gate cfg w ;; k) = ([Consume (lit "mc")], Return).
Proof. intros H1 H2. unfold mc_rate_gate. by rewrite H1, H2. Qed.

(** X10: while the limiter of the remote-to-chat-room direction is on and
    refuses, no remote chat message reaches the chat room, whatever its
    author and text, by the automatic relay or by [!!qq]. *)
Theorem on_chat_throttled_silent rt cfg w sender payload :
  mc_limiter cfg = true -> mc_consume w = false ->
  group_msgs (trace (on_chat rt cfg w sender payload)) = [].
Proof.
  intros Hl Hc. unfold on_chat, on_chat_body.
  destruct (cq_bot_set w); [|done]. cbn [negb].
  destruct (mc_allowed cfg (author payload)) eqn:Ha.
  - rewrite mc_access_pass by done.
    destruct (mc_to_qq_auto cfg && _).
    + destruct (negb (forward_join_message cfg) && _); [done|].
      rewrite bind_pass. by rewrite mc_rate_gate_throttled.
    + destruct (split1 (message payload) space) as [|a [|b [|c l]]]; try done.
      destruct (str_eqb a (lit "!!qq")); [|done].
      by rewrite mc_rate_gate_throttled.
  - unfold mc_allowed in Ha.
    destruct (mc_whitelist cfg), (bool_decide (author payload ∈ mc_list cfg)); done.
Qed.

Lemma on_chat_throttled_silent_witness :
  group_msgs (trace (on_chat plain_runtime (mc_config true true true)
                             (limited_world true false) (lit "survival")
                             {| author := lit "Steve"; message := lit "hello" |}))
  = [].
Proof. apply on_chat_throttled_silent; reflexivity. Defined.

(** X11: with the relay of join and leave notices off, a notice is dropped
    before the limiter is asked: nothing is sent and no token is taken. *)
Theorem on_chat_join_notice_dropped rt cfg w sender payload :
  cq_bot_set w = true ->
  mc_allowed cfg (author payload) = true ->
  mc_to_qq_auto cfg = true ->
  startswith (strip (message payload)) (lit "!!") = false ->
  forward_join_message cfg = false ->
  join_leave_match rt (strip (message payload)) = true ->
  on_chat rt cfg w sender payload = ([], Return).
Proof.
  intros Hb Ha Hauto Hbang Hf Hj. unfold on_chat, on_chat_body.
  rewrite Hb. cbn [negb]. rewrite mc_access_pass by done.
  by rewrite Hauto, Hbang, Hf, Hj.
Qed.

Lemma on_chat_join_notice_dropped_witness :
  on_chat join_runtime (mc_config true false true) (limited_world true true)
          (lit "survival") {| author := []; message := lit "Steve joined the game" |}
  = ([], Return).
Proof. apply on_chat_join_notice_dropped; reflexivity. Defined.

(** X12: a remote message is relayed only by the automatic relay or by the
    [!!qq] trigger. With the automatic relay off, or for a message that
    starts with [!!], a message that is not "!!qq", a space, and a text
    (so also the bare [!!qq]) is dropped without a trace. *)
Theorem on_chat_other_commands_dropped rt cfg w sender payload :
  mc_to_qq_auto cfg = false
    \/ startswith (strip (message payload)) (lit "!!") = true ->
  (forall rest, split1 (message payload) space <> [lit "!!qq"; rest]) ->
  trace (on_chat rt cfg w sender payload) = [].
Proof.
  intros Hpath Hq. unfold on_chat, on_chat_body.
  destruct (cq_bot_set w); [|done]. cbn [negb].
  destruct (mc_allowed cfg (author payload)) eqn:Ha.
  - rewrite mc_access_pass by done.
    replace (mc_to_qq_auto cfg
             && negb (startswith (strip (message payload)) (lit "!!"))) with false
      by (destruct Hpath as [-> | ->]; [done|by rewrite andb_false_r]).
    destruct (split1 (message payload) space) as [|a [|b [|c l]]] eqn:E; try done.
    destruct (str_eqb a (lit "!!qq")) eqn:Hq'; [|done].
    apply bool_decide_eq_true in Hq'. subst a. by destruct (Hq b).
  - unfold mc_allowed in Ha.
    destruct (mc_whitelist cfg), (bool_decide (author payload ∈ mc_list cfg)); done.
Qed.

Lemma on_chat_other_commands_dropped_witness :
  trace (on_chat plain_runtime (mc_config true true false) (limited_world true true)
                 (lit "survival") {| author := lit "Steve"; message := lit "!!qq" |})
  = [].
Proof.
  apply on_chat_other_commands_dropped.
  - right. reflexivity.
  - intros rest. vm_compute. discriminate.
Defined.

(** ** [on_message]: the gates before the dispatch *)

Lemma on_message_accepted rt cfg w data uid raw :
  accepted rt cfg w data uid raw ->
  on_message rt cfg w (Some data)
  = try_except (dispatch rt cfg w data uid raw)
               (emit (LogException (lit "Error in on_message()"))).
Proof. intros (Hc & Hd & Ha). by apply on_message_group_text. Qed.

(** X13: a group message whose sender the access list refuses (not on the
    list in whitelist mode, on it in blacklist mode) is dropped before any
    command is looked at: nothing is sent to the chat room or to the remote
    side, the limiter is not asked and no exception is logged (line 63 has
    written the event itself to the log by then), and this holds for admins
    too. *)
Theorem on_message_denied rt cfg w data uid raw :
  chatClient_set w = true ->
  group_text rt cfg data uid raw ->
  qq_allowed cfg uid = false ->
  on_message rt cfg w (Some data) = ([], Return).
Proof.
  intros Hc (o & g & u & -> & Hpt & Hmt & Han & Hg & Hgid & Hraw & Hu & Hint) Hal.
  unfold on_message, on_message_body. rewrite Hc. cbn [negb].
  rewrite bind_mret. cbn [dict_get]. rewrite !bind_mret, Hpt, Hmt.
  cbn [eq_str]. rewrite !str_eqb_refl. cbn [andb].
  unfold group_message. cbn [subscript].
  rewrite Han, bind_mret. cbn [is_None].
  rewrite Hg, bind_mret, Hgid, Hraw, bind_mret. cbn [as_str].
  rewrite bind_mret, Hu, bind_mret, Hint, bind_mret.
  unfold qq_allowed in Hal.
  destruct (qq_whitelist cfg); destruct (bool_decide _); done.
Qed.

Lemma on_message_denied_witness :
  on_message plain_runtime
             {| react_group_id := 1000; qq_whitelist := true; qq_list := [2%Z];
                admin := [1%Z]; allow_easyauth_offline_reg_for_everyone := true;
                allow_whitelist_for_everyone := true;
                client_to_query_online := []; client_to_query_stats := [];
                qq_to_mc_auto := true; qq_limiter := false; qq_max_length := 0;
                mc_whitelist := false; mc_list := []; mc_to_qq_auto := true;
                forward_join_message := true; mc_limiter := false;
                mc_max_length := 0 |}
             (world true true) (Some (group_event 1 "#/ survival stop"))
  = ([], Return).
Proof.
  refine (on_message_denied plain_runtime _ (world true true)
            (group_event 1 "#/ survival stop") 1 (lit "#/ survival stop") _ _ _).
  - reflexivity.
  - eexists _, _, _. repeat split; vm_compute; reflexivity.
  - reflexivity.
Defined.

Lemma eq_str_true (v : option json) (s : str) :
  eq_str v s = true -> v = Some (JStr s).
Proof.
  destruct v as [[]|]; try done. cbn [eq_str].
  intros H. apply bool_decide_eq_true in H. by subst.
Qed.

(** X14: events that are not for the router are ignored without a trace:
    an object whose post type is not "message" or whose message type is not
    "group", a group message with a non-null [anonymous] field, and a group
    message of another group. *)
Theorem on_message_out_of_scope rt cfg w (o : gmap string json) :
  o !! "post_type" <> Some (JStr (lit "message"))
  \/ o !! "message_type" <> Some (JStr (lit "group"))
  \/ (exists a, o !! "anonymous" = Some a /\ a <> JNull)
  \/ (o !! "anonymous" = Some JNull
      /\ exists g, o !! "group_id" = Some g /\ eq_int g (react_group_id cfg) = false) ->
  trace (on_message rt cfg w (Some (JObj o))) = [].
Proof.
  intros H. unfold on_message, on_message_body.
  destruct (chatClient_set w); [|done]. cbn [negb].
  rewrite bind_mret. cbn [dict_get]. rewrite !bind_mret.
  destruct (eq_str (o !! "post_type") (lit "message")) eqn:Hpt; [|done].
  destruct (eq_str (o !! "message_type") (lit "group")) eqn:Hmt; [|done].
  apply eq_str_true in Hpt, Hmt. cbn [andb].
  destruct H as [H | [H | [(a & Ha & Hn) | (Ha & g & Hg & Hne)]]]; try done.
  - unfold group_message. cbn [subscript]. rewrite Ha, bind_mret.
    by destruct a.
  - unfold group_message. cbn [subscript]. rewrite Ha, bind_mret. cbn [is_None].
    by rewrite Hg, bind_mret, Hne.
Qed.

Lemma on_message_out_of_scope_witness :
  trace (on_message plain_runtime (config true true) (world true true)
           (Some (JObj {[ "post_type" := JStr (lit "message");
                          "message_type" := JStr (lit "private");
                          "raw_message" := JStr (lit "!!ping") ]})))
  = [].
Proof.
  apply on_message_out_of_scope. right. left. vm_compute. discriminate.
Defined.

(** X15: a malformed event never makes the router send anything. What is no
    JSON, or JSON that is no object, is logged once; an object that lacks one
    of the keys a group message is read by is ignored or logged once. *)
Theorem on_message_malformed rt cfg w :
  chatClient_set w = true ->
  on_message rt cfg w None = logged_error
  /\ (forall d, (forall o, d <> JObj o) -> on_message rt cfg w (Some d) = logged_error)
  /\ (forall (o : gmap string json) k,
        k ∈ required_keys -> o !! k = None ->
        on_message rt cfg w (Some (JObj o)) = ([], Next tt)
        \/ on_message rt cfg w (Some (JObj o)) = logged_error).
Proof.
  intros Hc. unfold on_message, on_message_body, logged_error. rewrite Hc.
  cbn [negb]. split; [done|split].
  - intros d Hd. rewrite bind_mret. destruct d; try done. by destruct (Hd o).
  - intros o k Hk Hnone. rewrite bind_mret. cbn [dict_get]. rewrite !bind_mret.
    destruct (eq_str _ _ && eq_str _ _); [|by left].
    unfold group_message. cbn [subscript].
    destruct (o !! "anonymous") as [a|] eqn:Ha; [|by right].
    rewrite bind_mret. destruct (is_None a); [|by left].
    destruct (o !! "group_id") as [g|] eqn:Hg; [|by right].
    rewrite bind_mret. destruct (eq_int g (react_group_id cfg)); [|by left].
    destruct (o !! "raw_message") as [v|] eqn:Hv; [|by right].
    rewrite bind_mret. destruct v; try (by right). cbn [as_str]. rewrite bind_mret.
    destruct (o !! "user_id") as [u|] eqn:Hu; [|by right].
    exfalso. unfold required_keys in Hk.
    repeat (apply elem_of_cons in Hk as [-> | Hk]; [congruence|]).
    by apply elem_of_nil in Hk.
Qed.

Lemma on_message_malformed_witness :
  on_message plain_runtime (config true true) (world true true) (Some (JArr []))
  = logged_error.
Proof.
  refine (proj1 (proj2 (on_message_malformed plain_runtime (config true true)
                          (world true true) _)) (JArr []) _).
  - reflexivity.
  - intros o. discriminate.
Defined.

(** ** [on_message]: the commands *)

Lemma gate_not_hash rt cfg w uid raw :
  startswith (strip raw) (lit "#") = false ->
  privileged_gate rt cfg w uid raw = pass.
Proof. intros H. unfold privileged_gate. by rewrite H. Qed.

(** A text whose first character is '!' is no '#' line. *)
Lemma bang_not_hash (r : str) : startswith (strip (33 :: r)) (lit "#") = false.
Proof.
  unfold strip. change (lstrip (33 :: r)) with (33 :: r).
  destruct (rstrip_head (33 :: r)) as [-> | Hh]; [done|].
  destruct (rstrip (33 :: r)) as [|c r']; [done|].
  cbn in Hh. by injection Hh as ->.
Qed.

Lemma first_field_bang (raw a0 : str) (rest : list str) :
  split raw space = (33 :: a0) :: rest ->
  startswith (strip raw) (lit "#") = false.
Proof.
  intros H. destruct (split_on_head _ _ _ _ _ H) as [tl E].
  cbn [app] in E. subst raw. apply bang_not_hash.
Qed.

(** X16: [!!help] and [!!ping] are answered in the chat room, by the help
    text in one message and by [pong!!], for every sender the access gate
    lets through and whatever the state of the remote link; nothing goes to
    the remote side. *)
Theorem on_message_help_ping rt cfg w data uid :
  (accepted rt cfg w data uid (lit "!!help") ->
   on_message rt cfg w (Some data) = ([SendGroupMsg CQHelpMessage], Return))
  /\ (accepted rt cfg w data uid (lit "!!ping") ->
      on_message rt cfg w (Some data) = ([SendGroupMsg (lit "pong!!")], Return)).
Proof.
  split; intros H; rewrite (on_message_accepted _ _ _ _ _ _ H); unfold dispatch.
  - change (privileged_gate rt cfg w uid (lit "!!help")) with pass.
    rewrite bind_pass.
    change (split (lit "!!help") space) with [lit "!!help"].
    unfold fixed_commands. rewrite str_eqb_refl, send_text_trace.
    vm_compute. reflexivity.
  - change (privileged_gate rt cfg w uid (lit "!!ping")) with pass.
    rewrite bind_pass.
    change (split (lit "!!ping") space) with [lit "!!ping"].
    unfold fixed_commands.
    change (str_eqb (lit "!!ping") (lit "!!help")) with false.
    rewrite str_eqb_refl, send_text_trace.
    vm_compute. reflexivity.
Qed.

Lemma on_message_help_ping_witness :
  on_message plain_runtime (config false false) (world true false)
             (Some (group_event 2 "!!help"))
  = ([SendGroupMsg CQHelpMessage], Return).
Proof.
  refine (proj1 (on_message_help_ping plain_runtime (config false false)
                   (world true false) (group_event 2 "!!help") 2) _).
  split; [reflexivity|split; [|reflexivity]].
  eexists _, _, _. repeat split; vm_compute; reflexivity.
Defined.

(** X17: [!!online] from any sender the access gate lets through is
    forwarded, as it is and without parameters, to the client configured for
    online queries when the link is online; when the link is offline the
    sender gets the offline notice and nothing is forwarded. *)
Theorem on_message_online rt cfg w data uid :
  accepted rt cfg w data uid (lit "!!online") ->
  on_message rt cfg w (Some data)
  = if link_online w
    then ([SendCommand (client_to_query_online cfg) (lit "!!online") None], Return)
    else ([SendGroupMsg msg_offline], Return).
Proof.
  intros H. rewrite (on_message_accepted _ _ _ _ _ _ H). unfold dispatch.
  change (privileged_gate rt cfg w uid (lit "!!online")) with pass.
  rewrite bind_pass.
  change (split (lit "!!online") space) with [lit "!!online"].
  unfold fixed_commands.
  change (str_eqb (lit "!!online") (lit "!!help")) with false.
  change (str_eqb (lit "!!online") (lit "!!ping")) with false.
  rewrite str_eqb_refl. destruct (link_online w); [done|].
  rewrite send_text_trace. vm_compute. reflexivity.
Qed.

Lemma on_message_online_witness :
  on_message plain_runtime (config false false) (world true true)
             (Some (group_event 2 "!!online"))
  = ([SendCommand (lit "survival") (lit "!!online") None], Return).
Proof.
  refine (on_message_online plain_runtime (config false false)
            (world true true) (group_event 2 "!!online") 2 _).
  split; [reflexivity|split; [|reflexivity]].
  eexists _, _, _. repeat split; vm_compute; reflexivity.
Defined.

(** X18: [!!killbot <client> <name>] asks for no privilege: from any sender
    the access gate lets through, with the link online, the command
    [player <name> kill] goes to <client>, marked as coming from the chat
    room; with the link offline the sender gets the offline notice. *)
Theorem on_message_killbot rt cfg w data uid raw client name :
  accepted rt cfg w data uid raw ->
  split raw space = [lit "!!killbot"; client; name] ->
  on_message rt cfg w (Some data)
  = if link_online w
    then ([SendCommand client (lit "player " ++ name ++ lit " kill")
                       (Some vanilla_params)], Return)
    else ([SendGroupMsg msg_offline], Return).
Proof.
  intros H Hs. rewrite (on_message_accepted _ _ _ _ _ _ H). unfold dispatch.
  rewrite gate_not_hash by (by apply (first_field_bang raw _ _ Hs)).
  rewrite bind_pass, Hs.
  change (fixed_commands cfg w [lit "!!killbot"; client; name]) with pass.
  rewrite bind_pass.
  change (stats_command cfg [lit "!!killbot"; client; name]) with pass.
  rewrite bind_pass. unfold killbot_command. rewrite str_eqb_refl.
  destruct (link_online w); [done|].
  rewrite send_text_trace. vm_compute. reflexivity.
Qed.

Lemma on_message_killbot_witness :
  on_message plain_runtime (config false false) (world true true)
             (Some (group_event 2 "!!killbot survival bot_1"))
  = ([SendCommand (lit "survival") (lit "player bot_1 kill") (Some vanilla_params)],
     Return).
Proof.
  refine (on_message_killbot plain_runtime (config false false) (world true true)
            (group_event 2 "!!killbot survival bot_1") 2
            (lit "!!killbot survival bot_1") (lit "survival") (lit "bot_1") _ _).
  - split; [reflexivity|split; [|reflexivity]].
    eexists _, _, _. repeat split; vm_compute; reflexivity.
  - reflexivity.
Defined.

(** ** [on_message]: privileged lines of senders outside the admin set *)

Lemma on_message_gate_returned rt cfg w data uid raw :
  accepted rt cfg w data uid raw ->
  returned (privileged_gate rt cfg w uid raw) = true ->
  on_message rt cfg w (Some data) = privileged_gate rt cfg w uid raw.
Proof.
  intros H Hr. rewrite (on_message_accepted _ _ _ _ _ _ H).
  rewrite dispatch_gate_returned by done.
  rewrite try_except_returned by done.
  destruct (privileged_gate rt cfg w uid raw) as [tr [a| |e]]; done.
Qed.

Lemma notice_then_return (text : str) :
  send_text_chunks text = [text] ->
  (send_text text ;; py_return) = ([SendGroupMsg text], Return : ctl unit).
Proof. intros H. by rewrite send_text_trace, H. Qed.

Lemma registration_run rt w (prefix target arg : str) :
  (if negb (is_valid_minecraft_username rt (strip arg)) then
     send_text msg_bad_username ;; py_return
   else
     (if link_online w
      then emit (SendCommand target (prefix ++ strip arg) (Some vanilla_params))
      else send_text msg_offline) ;;
     py_return)
  = registration rt w prefix target arg.
Proof.
  unfold registration. destruct (is_valid_minecraft_username rt (strip arg)); cbn [negb].
  - destruct (link_online w); [done|]. by apply notice_then_return.
  - by apply notice_then_return.
Qed.

(** The gate for a three-part '#' line of a sender outside the admin set. *)
Lemma gate_non_admin rt cfg w uid raw cmd0 cmd1 cmd2 more :
  uid ∉ admin cfg ->
  startswith (strip raw) (lit "#") = true ->
  split_ws (strip (tail1 raw)) 2 = cmd0 :: cmd1 :: cmd2 :: more ->
  privileged_gate rt cfg w uid raw
  = if bool_decide (lower cmd0 ∈ offline_aliases)
       && allow_easyauth_offline_reg_for_everyone cfg
    then registration rt w (lit "auth addToForcedOffline ") cmd1 cmd2
    else if bool_decide (lower cmd0 ∈ whitelist_aliases)
            && allow_whitelist_for_everyone cfg
    then registration rt w (lit "whitelist add ") cmd1 cmd2
    else ([SendGroupMsg msg_command_failed], Return).
Proof.
  intros Ha Hs Hc. unfold privileged_gate. rewrite Hs, Hc.
  rewrite (bool_decide_eq_false_2 _ Ha). cbn [orb].
  fold offline_aliases whitelist_aliases.
  destruct (bool_decide (lower cmd0 ∈ offline_aliases)
            && allow_easyauth_offline_reg_for_everyone cfg).
  { apply registration_run. }
  destruct (bool_decide (lower cmd0 ∈ whitelist_aliases)
            && allow_whitelist_for_everyone cfg).
  { apply registration_run. }
  by apply notice_then_return.
Qed.

Lemma registration_returned rt w prefix target arg :
  returned (registration rt w prefix target arg) = true.
Proof.
  unfold registration.
  by destruct (is_valid_minecraft_username rt (strip arg)), (link_online w).
Qed.

Lemma on_message_non_admin rt cfg w data uid raw cmd0 cmd1 cmd2 more :
  accepted rt cfg w data uid raw ->
  uid ∉ admin cfg ->
  startswith (strip raw) (lit "#") = true ->
  split_ws (strip (tail1 raw)) 2 = cmd0 :: cmd1 :: cmd2 :: more ->
  on_message rt cfg w (Some data)
  = if bool_decide (lower cmd0 ∈ offline_aliases)
       && allow_easyauth_offline_reg_for_everyone cfg
    then registration rt w (lit "auth addToForcedOffline ") cmd1 cmd2
    else if bool_decide (lower cmd0 ∈ whitelist_aliases)
            && allow_whitelist_for_everyone cfg
    then registration rt w (lit "whitelist add ") cmd1 cmd2
    else ([SendGroupMsg msg_command_failed], Return).
Proof.
  intros H Ha Hs Hc.
  rewrite (on_message_gate_returned rt cfg w data uid raw H).
  - by apply (gate_non_admin rt cfg w uid raw cmd0 cmd1 cmd2 more).
  - rewrite (gate_non_admin rt cfg w uid raw cmd0 cmd1 cmd2 more) by done.
    repeat case_match; first [apply registration_returned | done].
Qed.

(** X19: a three-part '#' line from a sender outside the admin set is
    refused with the "command failed" text, and nothing is forwarded, unless
    its first part is an alias whose "allow for everyone" override is on; in
    particular '/' and '!' are refused. *)
Theorem on_message_non_admin_refused rt cfg w data uid raw cmd0 cmd1 cmd2 more :
  accepted rt cfg w data uid raw ->
  uid ∉ admin cfg ->
  startswith (strip raw) (lit "#") = true ->
  split_ws (strip (tail1 raw)) 2 = cmd0 :: cmd1 :: cmd2 :: more ->
  lower cmd0 ∉ offline_aliases \/ allow_easyauth_offline_reg_for_everyone cfg = false ->
  lower cmd0 ∉ whitelist_aliases \/ allow_whitelist_for_everyone cfg = false ->
  on_message rt cfg w (Some data) = ([SendGroupMsg msg_command_failed], Return).
Proof.
  intros H Ha Hs Hc Hoff Hwl.
  rewrite (on_message_non_admin rt cfg w data uid raw cmd0 cmd1 cmd2 more) by done.
  replace (bool_decide (lower cmd0 ∈ offline_aliases)
           && allow_easyauth_offline_reg_for_everyone cfg) with false.
  2: { destruct Hoff as [Hn | ->]; [by rewrite bool_decide_eq_false_2|].
       by rewrite andb_false_r. }
  replace (bool_decide (lower cmd0 ∈ whitelist_aliases)
           && allow_whitelist_for_everyone cfg) with false; [done|].
  destruct Hwl as [Hn | ->]; [by rewrite bool_decide_eq_false_2|].
  by rewrite andb_false_r.
Qed.

Lemma on_message_non_admin_refused_witness :
  on_message plain_runtime (config false true) (world true true)
             (Some (group_event 2 "#/ survival stop"))
  = ([SendGroupMsg msg_command_failed], Return).
Proof.
  refine (on_message_non_admin_refused plain_runtime (config false true)
            (world true true) (group_event 2 "#/ survival stop") 2
            (lit "#/ survival stop") (lit "/") (lit "survival") (lit "stop") []
            _ _ _ _ _ _).
  - accept_event.
  - by_evaluation.
  - reflexivity.
  - reflexivity.
  - left. by_evaluation.
  - left. by_evaluation.
Defined.

(** X20: with the override for the offline registration on, a sender outside
    the admin set who sends '#', an alias of it in any letter case, a client
    and a name gets the name checked first: an invalid name is refused in
    the chat room whatever the link state, a valid one is forwarded as
    [auth addToForcedOffline <name>] to the client when the link is online
    and answered by the offline notice when it is not. *)
Theorem on_message_offline_registration rt cfg w data uid raw cmd0 cmd1 cmd2 more :
  accepted rt cfg w data uid raw ->
  uid ∉ admin cfg ->
  startswith (strip raw) (lit "#") = true ->
  split_ws (strip (tail1 raw)) 2 = cmd0 :: cmd1 :: cmd2 :: more ->
  lower cmd0 ∈ offline_aliases ->
  allow_easyauth_offline_reg_for_everyone cfg = true ->
  on_message rt cfg w (Some data)
  = if is_valid_minecraft_username rt (strip cmd2) then
      if link_online w
      then ([SendCommand cmd1 (lit "auth addToForcedOffline " ++ strip cmd2)
                         (Some vanilla_params)], Return)
      else ([SendGroupMsg msg_offline], Return)
    else ([SendGroupMsg msg_bad_username], Return).
Proof.
  intros H Ha Hs Hc Hal Hov.
  rewrite (on_message_non_admin rt cfg w data uid raw cmd0 cmd1 cmd2 more) by done.
  by rewrite (bool_decide_eq_true_2 _ Hal), Hov.
Qed.

Lemma on_message_offline_registration_witness :
  on_message plain_runtime (config false true) (world true true)
             (Some (group_event 2 "#OFFLINE survival Steve"))
  = ([SendCommand (lit "survival") (lit "auth addToForcedOffline Steve")
                  (Some vanilla_params)], Return).
Proof.
  refine (on_message_offline_registration plain_runtime (config false true)
            (world true true) (group_event 2 "#OFFLINE survival Steve") 2
            (lit "#OFFLINE survival Steve") (lit "OFFLINE") (lit "survival")
            (lit "Steve") [] _ _ _ _ _ _).
  - accept_event.
  - by_evaluation.
  - reflexivity.
  - reflexivity.
  - by_evaluation.
  - reflexivity.
Defined.

Lemma whitelist_not_offline (cmd0 : str) :
  lower cmd0 ∈ whitelist_aliases -> bool_decide (lower cmd0 ∈ offline_aliases) = false.
Proof.
  intros H. apply bool_decide_eq_false. intros H'.
  unfold whitelist_aliases, offline_aliases in *.
  repeat (apply elem_of_cons in H as [H | H]);
    try (by apply elem_of_nil in H);
    rewrite H in H';
    repeat (apply elem_of_cons in H' as [H' | H']);
    try (by apply elem_of_nil in H'); vm_compute in H'; discriminate.
Qed.

(** X21: the same for the whitelist aliases under their own override: the
    name is checked, and [whitelist add <name>] is forwarded, refused or
    answered by the offline notice. *)
Theorem on_message_whitelist rt cfg w data uid raw cmd0 cmd1 cmd2 more :
  accepted rt cfg w data uid raw ->
  uid ∉ admin cfg ->
  startswith (strip raw) (lit "#") = true ->
  split_ws (strip (tail1 raw)) 2 = cmd0 :: cmd1 :: cmd2 :: more ->
  lower cmd0 ∈ whitelist_aliases ->
  allow_whitelist_for_everyone cfg = true ->
  on_message rt cfg w (Some data)
  = if is_valid_minecraft_username rt (strip cmd2) then
      if link_online w
      then ([SendCommand cmd1 (lit "whitelist add " ++ strip cmd2)
                         (Some vanilla_params)], Return)
      else ([SendGroupMsg msg_offline], Return)
    else ([SendGroupMsg msg_bad_username], Return).
Proof.
  intros H Ha Hs Hc Hal Hov.
  rewrite (on_message_non_admin rt cfg w data uid raw cmd0 cmd1 cmd2 more) by done.
  rewrite (whitelist_not_offline cmd0 Hal). cbn [andb].
  by rewrite (bool_decide_eq_true_2 _ Hal), Hov.
Qed.

Lemma on_message_whitelist_witness :
  on_message plain_runtime (config false true) (world true false)
             (Some (group_event 2 "#白名单 survival Steve"))
  = ([SendGroupMsg msg_offline], Return).
Proof.
  refine (on_message_whitelist plain_runtime (config false true)
            (world true false) (group_event 2 "#白名单 survival Steve") 2
            (lit "#白名单 survival Steve") (lit "白名单") (lit "survival")
            (lit "Steve") [] _ _ _ _ _ _).
  - accept_event.
  - by_evaluation.
  - reflexivity.
  - reflexivity.
  - by_evaluation.
  - reflexivity.
Defined.

(** X22: a sender outside the admin set cannot make the router forward a
    command of their choosing: whatever three-part '#' line they send, a
    command that is forwarded is one of the two registration commands, for a
    name that passed the username check, under the override of its alias,
    and it is marked as coming from the chat room. *)
Theorem non_admin_forwards_registrations_only
    rt cfg w data uid raw cmd0 cmd1 cmd2 more client cmd ps :
  accepted rt cfg w data uid raw ->
  uid ∉ admin cfg ->
  startswith (strip raw) (lit "#") = true ->
  split_ws (strip (tail1 raw)) 2 = cmd0 :: cmd1 :: cmd2 :: more ->
  SendCommand client cmd ps ∈ trace (on_message rt cfg w (Some data)) ->
  ps = Some vanilla_params
  /\ exists name,
       is_valid_minecraft_username rt name = true
       /\ ((cmd = lit "auth addToForcedOffline " ++ name
            /\ allow_easyauth_offline_reg_for_everyone cfg = true)
           \/ (cmd = lit "whitelist add " ++ name
               /\ allow_whitelist_for_everyone cfg = true)).
Proof.
  intros H Ha Hs Hc Hin.
  rewrite (on_message_non_admin rt cfg w data uid raw cmd0 cmd1 cmd2 more) in Hin
    by done.
  unfold registration in Hin.
  destruct (bool_decide (lower cmd0 ∈ offline_aliases)) eqn:B1;
    destruct (allow_easyauth_offline_reg_for_everyone cfg) eqn:B2;
    destruct (bool_decide (lower cmd0 ∈ whitelist_aliases)) eqn:B3;
    destruct (allow_whitelist_for_everyone cfg) eqn:B4;
    destruct (is_valid_minecraft_username rt (strip cmd2)) eqn:B5;
    destruct (link_online w) eqn:B6;
    cbn [andb trace fst] in Hin;
    apply list_elem_of_singleton in Hin;
    try discriminate;
    injection Hin as -> -> ->;
    (split; [done|]); exists (strip cmd2); (split; [done|]); eauto.
Qed.

Lemma non_admin_forwards_registrations_only_witness :
  Some vanilla_params = Some vanilla_params
  /\ exists name,
       is_valid_minecraft_username plain_runtime name = true
       /\ ((lit "whitelist add Steve" = lit "auth addToForcedOffline " ++ name
            /\ allow_easyauth_offline_reg_for_everyone (config false true) = true)
           \/ (lit "whitelist add Steve" = lit "whitelist add " ++ name
               /\ allow_whitelist_for_everyone (config false true) = true)).
Proof.
  refine (non_admin_forwards_registrations_only plain_runtime (config false true)
            (world true true) (group_event 2 "#whitelist survival Steve") 2
            (lit "#whitelist survival Steve") (lit "whitelist") (lit "survival")
            (lit "Steve") [] (lit "survival") (lit "whitelist add Steve")
            (Some vanilla_params) _ _ _ _ _).
  - accept_event.
  - by_evaluation.
  - reflexivity.
  - reflexivity.
  - vm_compute. apply list_elem_of_here.
Defined.

(** ** [on_message]: the relay of chat text *)

Lemma not_command_word (a0 : str) :
  a0 ∉ command_words ->
  str_eqb a0 (lit "!!help") = false /\ str_eqb a0 (lit "!!ping") = false
  /\ str_eqb a0 (lit "!!online") = false /\ str_eqb a0 (lit "!!stats") = false
  /\ str_eqb a0 (lit "!!killbot") = false.
Proof.
  intros H. unfold command_words in H. unfold str_eqb.
  repeat split; apply bool_decide_eq_false; intros ->; apply H;
    repeat first [apply list_elem_of_here | apply list_elem_of_further].
Qed.

Lemma commands_skip cfg w (a0 : str) (rest : list str) {B} (k : M B) :
  a0 ∉ command_words ->
  (fixed_commands cfg w (a0 :: rest) ;; stats_command cfg (a0 :: rest) ;;
   killbot_command w (a0 :: rest) ;; k) = k.
Proof.
  intros H. destruct (not_command_word a0 H) as (H1 & H2 & H3 & H4 & H5).
  unfold fixed_commands, stats_command, killbot_command.
  rewrite H4. destruct rest as [|a1 [|a2 [|a3 rest]]];
    rewrite ?H1, ?H2, ?H3, ?H5, ?bind_pass; done.
Qed.

Lemma relay_run rt cfg w data uid raw args card nick text0 :
  has_sender data card nick ->
  qq_to_mc_auto cfg
  || match args with arg0 :: _ :: _ => str_eqb arg0 (lit "!!mc") | _ => false end
  = true ->
  (if qq_to_mc_auto cfg then Some raw else split1 raw space !! 1%nat) = Some text0 ->
  uid ∈ admin cfg \/ qq_limiter cfg = false \/ qq_consume w = true ->
  relay rt cfg w data uid raw args
  = relayed cfg (negb (bool_decide (uid ∈ admin cfg)) && qq_limiter cfg)
            (cq_sub rt (html_unescape rt text0)) (sender_name card nick).
Proof.
  intros (o & s & -> & Hs & Hcard & Hnick) Htrig Htext Hrate.
  unfold relay, relayed, over_cap, sender_name, consumed. rewrite Htrig.
  cbn [subscript]. rewrite Hs. cbv beta iota.
  assert (Hgate : forall k : M unit,
    ((if negb (bool_decide (uid ∈ admin cfg)) && qq_limiter cfg
      then emit (Consume (lit "qq")) ;; (if negb (qq_consume w) then py_return else pass)
      else pass) ;; k)
    = ((if negb (bool_decide (uid ∈ admin cfg)) && qq_limiter cfg
        then [Consume (lit "qq")] else []) ++ trace k, outcome k)).
  { intros k.
    destruct (negb (bool_decide (uid ∈ admin cfg)) && qq_limiter cfg) eqn:E.
    - apply andb_true_iff in E as [E1 E2]. apply negb_true_iff in E1.
      apply bool_decide_eq_false in E1.
      destruct Hrate as [? | [? | ->]]; [done|congruence|]. by destruct k.
    - rewrite bind_pass. by destruct k. }
  rewrite Hgate. clear Hgate.
  rewrite bind_mret. cbn [subscript]. rewrite Hcard, bind_mret. cbn [py_len].
  rewrite bind_mret.
  assert (Hname :
    (if bool_decide (len card = 0%nat)
     then s' ← mret (JObj s); subscript s' "nickname"
     else mret (JStr card))
    = mret (JStr (if bool_decide (len card = 0%nat) then nick else card))).
  { destruct (bool_decide (len card = 0%nat)); [|done].
    rewrite bind_mret. cbn [subscript]. by rewrite Hnick. }
  rewrite Hname, bind_mret. clear Hname.
  assert (Ht :
    (if qq_to_mc_auto cfg then mret (html_unescape rt raw)
     else match split1 raw space !! 1%nat with
          | Some t => mret (html_unescape rt t)
          | None => raise IndexError
          end) = mret (html_unescape rt text0)).
  { destruct (qq_to_mc_auto cfg); [by injection Htext as ->|]. by rewrite Htext. }
  rewrite Ht, bind_mret. clear Ht. cbv zeta.
  destruct ((0 <? qq_max_length cfg)%Z && _); unfold trace, outcome, py_return, emit;
    cbn [fst snd]; by rewrite ?app_nil_r.
Qed.

Lemma split_on_nonempty (sep : char) (s cur : str) : split_on sep cur s <> [].
Proof. revert cur. induction s as [|c r IH]; intros cur; cbn; [done|]. by destruct (c =? sep). Qed.

Lemma join_cons (sep p : str) (rest : list str) :
  rest <> [] -> join sep (p :: rest) = p ++ sep ++ join sep rest.
Proof. by destruct rest. Qed.

Lemma join_split_on (sep : char) (s : str) :
  forall cur, join [sep] (split_on sep cur s) = cur ++ s.
Proof.
  induction s as [|c r IH]; intros cur; cbn [split_on].
  - cbn. by rewrite app_nil_r.
  - destruct (N.eqb_spec c sep) as [-> | Hne].
    + rewrite join_cons by apply split_on_nonempty. by rewrite IH.
    + rewrite IH. by rewrite <- app_assoc.
Qed.

Lemma split_on_sep_free (sep : char) (s : str) :
  forall cur, sep ∉ cur -> Forall (fun f => sep ∉ f) (split_on sep cur s).
Proof.
  induction s as [|c r IH]; intros cur Hcur; cbn [split_on].
  - by constructor.
  - destruct (N.eqb_spec c sep) as [-> | Hne].
    + constructor; [done|]. apply IH. apply not_elem_of_nil.
    + apply IH. rewrite elem_of_app, list_elem_of_singleton. intros [? | ?]; by subst.
Qed.

Lemma split1_of_split (sep : char) (s : str) :
  forall cur a b rest,
    split_on sep cur s = a :: b :: rest ->
    split1_on sep cur s = [a; join [sep] (b :: rest)].
Proof.
  induction s as [|c r IH]; intros cur a b rest H; cbn [split_on split1_on] in *.
  - done.
  - destruct (c =? sep).
    + injection H as <- H. by rewrite <- H, join_split_on.
    + by apply IH.
Qed.

(** X23: [split(' ')] and [' '.join] are inverse to each other as lines 64
    and 149 use them: the fields of a text hold no space, there is at least
    one, and joined by spaces they are the text again; so the stats command
    sent on is the text with [rank] put in after [!!stats]. *)
Theorem split_join_round_trip (raw : str) :
  split raw space <> []
  /\ Forall (fun field => space ∉ field) (split raw space)
  /\ join [space] (split raw space) = raw
  /\ (forall rest, split raw space = lit "!!stats" :: rest -> rest <> [] ->
        lit "!!stats rank " ++ join [space] rest
        = lit "!!stats rank " ++ drop 8 raw).
Proof.
  unfold split. split; [apply split_on_nonempty|].
  split; [apply split_on_sep_free, not_elem_of_nil|].
  split; [apply join_split_on|].
  intros rest H Hne. f_equal.
  pose proof (join_split_on space raw []) as J. rewrite H in J.
  rewrite join_cons in J by done. cbn [app] in J. by rewrite <- J.
Qed.

Lemma split_join_round_trip_witness :
  lit "!!stats rank " ++ join [space] [lit "used"; lit "diamond_pickaxe"]
  = lit "!!stats rank " ++ drop 8 (lit "!!stats used diamond_pickaxe").
Proof.
  refine (proj2 (proj2 (proj2 (split_join_round_trip
            (lit "!!stats used diamond_pickaxe")))) _ _ _).
  - reflexivity.
  - discriminate.
Defined.

Lemma on_message_reaches_relay rt cfg w data uid raw a0 rest card nick text0 :
  accepted rt cfg w data uid raw ->
  has_sender data card nick ->
  startswith (strip raw) (lit "#") = false ->
  split raw space = a0 :: rest ->
  a0 ∉ command_words ->
  qq_to_mc_auto cfg
  || match a0 :: rest with arg0 :: _ :: _ => str_eqb arg0 (lit "!!mc") | _ => false end
  = true ->
  (if qq_to_mc_auto cfg then Some raw else split1 raw space !! 1%nat) = Some text0 ->
  uid ∈ admin cfg \/ qq_limiter cfg = false \/ qq_consume w = true ->
  on_message rt cfg w (Some data)
  = relayed cfg (negb (bool_decide (uid ∈ admin cfg)) && qq_limiter cfg)
            (cq_sub rt (html_unescape rt text0)) (sender_name card nick).
Proof.
  intros H Hsender Hhash Hsplit Hword Htrig Htext Hrate.
  rewrite (on_message_accepted _ _ _ _ _ _ H). unfold dispatch.
  rewrite gate_not_hash, bind_pass, Hsplit by done.
  rewrite commands_skip by done.
  rewrite (relay_run rt cfg w data uid raw (a0 :: rest) card nick text0) by done.
  unfold relayed. by destruct (over_cap _ _).
Qed.

(** X24: with the automatic relay on, a group text that is no '#' line and
    whose first field is none of the command words is relayed whole, an
    [!!mc] in front included: unescaped, its CQ markers replaced, under the
    sender's card or, when the card is empty, nickname. An admin is never
    charged to the limiter; a text over the length cap is dropped and a cap
    of 0 drops nothing. *)
Theorem on_message_auto_relay rt cfg w data uid raw a0 rest card nick :
  accepted rt cfg w data uid raw ->
  has_sender data card nick ->
  qq_to_mc_auto cfg = true ->
  startswith (strip raw) (lit "#") = false ->
  split raw space = a0 :: rest ->
  a0 ∉ command_words ->
  uid ∈ admin cfg \/ qq_limiter cfg = false \/ qq_consume w = true ->
  on_message rt cfg w (Some data)
  = relayed cfg (negb (bool_decide (uid ∈ admin cfg)) && qq_limiter cfg)
            (cq_sub rt (html_unescape rt raw)) (sender_name card nick)
  /\ (uid ∈ admin cfg ->
      forall key, Consume key ∉ trace (on_message rt cfg w (Some data)))
  /\ (qq_max_length cfg = 0%Z ->
      SendChat (cq_sub rt (html_unescape rt raw)) (JStr (sender_name card nick))
      ∈ trace (on_message rt cfg w (Some data))).
Proof.
  intros H Hsender Hauto Hhash Hsplit Hword Hrate.
  rewrite (on_message_reaches_relay rt cfg w data uid raw a0 rest card nick raw);
    try done; [|by rewrite Hauto..].
  split; [done|]. unfold relayed, consumed. split.
  - intros Ha key. rewrite (bool_decide_eq_true_2 _ Ha). cbn [negb andb].
    destruct (over_cap _ _); cbn [trace fst app];
      [apply not_elem_of_nil|].
    rewrite list_elem_of_singleton. done.
  - intros Hcap. unfold over_cap. rewrite Hcap. cbn [andb Z.ltb Z.compare trace fst].
    rewrite elem_of_app, list_elem_of_singleton. by right.
Qed.

Lemma on_message_auto_relay_witness :
  on_message plain_runtime (config true false) (world true true)
             (Some (group_event 2 "!!mc hello"))
  = ([SendChat (lit "!!mc hello") (JStr (lit "Alex"))], Next tt).
Proof.
  refine (proj1 (on_message_auto_relay plain_runtime (config true false)
            (world true true) (group_event 2 "!!mc hello") 2 (lit "!!mc hello")
            (lit "!!mc") [lit "hello"] [] (lit "Alex") _ _ _ _ _ _ _)).
  - accept_event.
  - eexists _, _. repeat split; vm_compute; reflexivity.
  - reflexivity.
  - reflexivity.
  - reflexivity.
  - by_evaluation.
  - right. left. reflexivity.
Defined.

Lemma mc_not_command_word : lit "!!mc" ∉ command_words.
Proof. by_evaluation. Qed.

(** X25: with the automatic relay off, "!!mc" followed by a space and a text
    relays the text after that first space, and only that: the trigger is
    taken off, the rest is unescaped and its CQ markers replaced, and it goes
    out under the sender's card or nickname unless it is over the cap. *)
Theorem on_message_mc_relay rt cfg w data uid raw a1 rest card nick :
  accepted rt cfg w data uid raw ->
  has_sender data card nick ->
  qq_to_mc_auto cfg = false ->
  split raw space = lit "!!mc" :: a1 :: rest ->
  uid ∈ admin cfg \/ qq_limiter cfg = false \/ qq_consume w = true ->
  raw = lit "!!mc " ++ join [space] (a1 :: rest)
  /\ on_message rt cfg w (Some data)
     = relayed cfg (negb (bool_decide (uid ∈ admin cfg)) && qq_limiter cfg)
               (cq_sub rt (html_unescape rt (join [space] (a1 :: rest))))
               (sender_name card nick).
Proof.
  intros H Hsender Hauto Hsplit Hrate. split.
  - pose proof (join_split_on space raw []) as J. fold (split raw space) in J.
    rewrite Hsplit, join_cons in J by done. symmetry. exact J.
  - apply (on_message_reaches_relay rt cfg w data uid raw (lit "!!mc") (a1 :: rest));
      try done.
    + by apply (first_field_bang raw _ _ Hsplit).
    + apply mc_not_command_word.
    + by rewrite Hauto, str_eqb_refl.
    + rewrite Hauto. unfold split1.
      by rewrite (split1_of_split space raw [] _ _ _ Hsplit).
Qed.

Lemma on_message_mc_relay_witness :
  on_message plain_runtime (config false false) (world true true)
             (Some (group_event 2 "!!mc hello  there"))
  = ([SendChat (lit "hello  there") (JStr (lit "Alex"))], Next tt).
Proof.
  refine (proj2 (on_message_mc_relay plain_runtime (config false false)
            (world true true) (group_event 2 "!!mc hello  there") 2
            (lit "!!mc hello  there") (lit "hello") [[]; lit "there"] []
            (lit "Alex") _ _ _ _ _)).
  - accept_event.
  - eexists _, _. repeat split; vm_compute; reflexivity.
  - reflexivity.
  - reflexivity.
  - right. left. reflexivity.
Defined.

(** X26: a sender outside the admin set whose text would be relayed, while
    the limiter of the chat-room direction is on and refuses, has the text
    dropped: one token is asked for, nothing is forwarded and nothing is
    answered. *)
Theorem on_message_relay_throttled rt cfg w data uid raw a0 rest :
  accepted rt cfg w data uid raw ->
  startswith (strip raw) (lit "#") = false ->
  split raw space = a0 :: rest ->
  a0 ∉ command_words ->
  qq_to_mc_auto cfg = true \/ (a0 = lit "!!mc" /\ rest <> []) ->
  uid ∉ admin cfg ->
  qq_limiter cfg = true ->
  qq_consume w = false ->
  on_message rt cfg w (Some data) = ([Consume (lit "qq")], Return).
Proof.
  intros H Hhash Hsplit Hword Htrig Ha Hl Hc.
  rewrite (on_message_accepted _ _ _ _ _ _ H). unfold dispatch.
  rewrite gate_not_hash, bind_pass, Hsplit by done.
  rewrite commands_skip by done. unfold relay.
  replace (qq_to_mc_auto cfg
           || match a0 :: rest with
              | arg0 :: _ :: _ => str_eqb arg0 (lit "!!mc")
              | _ => false
              end) with true.
  2: { destruct Htrig as [-> | [-> Hr]]; [done|].
       destruct rest; [done|]. by rewrite str_eqb_refl, orb_true_r. }
  by rewrite (bool_decide_eq_false_2 _ Ha), Hl, Hc.
Qed.

Lemma on_message_relay_throttled_witness :
  on_message plain_runtime
             {| react_group_id := 1000; qq_whitelist := false; qq_list := [];
                admin := [1%Z]; allow_easyauth_offline_reg_for_everyone := false;
                allow_whitelist_for_everyone := false;
                client_to_query_online := []; client_to_query_stats := [];
                qq_to_mc_auto := true; qq_limiter := true; qq_max_length := 0;
                mc_whitelist := false; mc_list := []; mc_to_qq_auto := true;
                forward_join_message := true; mc_limiter := false;
                mc_max_length := 0 |}
             (limited_world false true) (Some (group_event 2 "hello"))
  = ([Consume (lit "qq")], Return).
Proof.
  refine (on_message_relay_throttled plain_runtime _ (limited_world false true)
            (group_event 2 "hello") 2 (lit "hello") (lit "hello") []
            _ _ _ _ _ _ _ _).
  - accept_event.
  - reflexivity.
  - reflexivity.
  - by_evaluation.
  - left. reflexivity.
  - by_evaluation.
  - reflexivity.
  - reflexivity.
Defined.

Lemma hash_first_field (raw a0 : str) (rest : list str) :
  startswith (strip raw) (lit "#") = true ->
  split raw space = a0 :: rest ->
  (a0 ∉ command_words) /\ a0 <> lit "!!mc".
Proof.
  intros Hh Hs.
  assert (Hb : forall r, a0 <> 33 :: r).
  { intros r ->. rewrite (first_field_bang raw _ _ Hs) in Hh. done. }
  split.
  - unfold command_words. intros Hin.
    repeat (apply elem_of_cons in Hin as [-> | Hin]; [by eapply Hb|]).
    by apply elem_of_nil in Hin.
  - intros ->. by eapply Hb.
Qed.

Lemma trace_bind {A B} (m : M A) (f : A -> M B) :
  trace (m ≫= f)
  = trace m ++ match outcome m with Next a => trace (f a) | _ => [] end.
Proof.
  destruct m as [tr [a| |e]]; unfold trace, outcome; cbn [mbind M_bind fst snd];
    [by destruct (f a)|by rewrite app_nil_r..].
Qed.

Lemma Forall_trace_bind {A B} (P : action -> Prop) (m : M A) (f : A -> M B) :
  Forall P (trace m) -> (forall a, Forall P (trace (f a))) ->
  Forall P (trace (m ≫= f)).
Proof.
  intros Hm Hf. rewrite trace_bind. apply Forall_app. split; [done|].
  by destruct (outcome m).
Qed.

Lemma Forall_trace_try_except {A} (P : action -> Prop) (m h : M A) :
  Forall P (trace m) -> Forall P (trace h) -> Forall P (trace (try_except m h)).
Proof.
  intros Hm Hh. destruct m as [tr [a| |e]]; try done.
  destruct h as [tr' c]. unfold trace in *. cbn [try_except fst] in *.
  apply Forall_app. by split.
Qed.

Lemma subscript_silent (d : json) (k : string) : trace (subscript d k) = [].
Proof. destruct d; try done. cbn [subscript]. by destruct (o !! k). Qed.

Lemma py_len_silent (v : json) : trace (py_len v) = [].
Proof. by destruct v. Qed.

(** The relay step only asks the limiter and sends chat text. *)
Lemma relay_effects rt cfg w data uid raw args :
  Forall neither_command_nor_reply (trace (relay rt cfg w data uid raw args)).
Proof.
  unfold relay. destruct (qq_to_mc_auto cfg || _); [|by constructor].
  apply Forall_trace_bind.
  { destruct (negb (bool_decide (uid ∈ admin cfg)) && qq_limiter cfg);
      [|by constructor].
    destruct (qq_consume w); by repeat constructor. }
  intros _. apply Forall_trace_bind; [by rewrite subscript_silent|].
  intros s. apply Forall_trace_bind; [by rewrite subscript_silent|].
  intros card. apply Forall_trace_bind; [by rewrite py_len_silent|].
  intros n. apply Forall_trace_bind.
  { destruct (bool_decide (n = 0%nat)); [|by constructor].
    apply Forall_trace_bind; [by rewrite subscript_silent|].
    intros s'. by rewrite subscript_silent. }
  intros sender. apply Forall_trace_bind.
  { destruct (qq_to_mc_auto cfg); [by constructor|].
    destruct (split1 raw space !! 1%nat); by constructor. }
  intros text. cbv zeta.
  destruct ((0 <? qq_max_length cfg)%Z && _); by repeat constructor.
Qed.

(** X27: a '#' line that has fewer than three parts after the '#' is not a
    privileged line. Whether the automatic relay is on or off, no command is
    forwarded and nothing, so no refusal either, is sent to the chat room:
    all the line can cause is what the relay of chat text does. With the
    automatic relay off nothing is sent to either side, the limiter is not
    asked and no exception is logged; an admin's [#/ list], one part short,
    goes unanswered. *)
Theorem on_message_short_hash_line rt cfg w data uid raw :
  accepted rt cfg w data uid raw ->
  startswith (strip raw) (lit "#") = true ->
  (length (split_ws (strip (tail1 raw)) 2) < 3)%nat ->
  Forall neither_command_nor_reply (trace (on_message rt cfg w (Some data)))
  /\ (qq_to_mc_auto cfg = false ->
      on_message rt cfg w (Some data) = ([], Next tt)).
Proof.
  intros H Hh Hlen.
  rewrite (on_message_accepted _ _ _ _ _ _ H). unfold dispatch.
  assert (Hg : privileged_gate rt cfg w uid raw = pass).
  { unfold privileged_gate. rewrite Hh.
    destruct (split_ws (strip (tail1 raw)) 2) as [|c0 [|c1 [|c2 more]]]; try done.
    cbn [length] in Hlen. lia. }
  rewrite Hg, bind_pass.
  destruct (split raw space) as [|a0 rest] eqn:Hs.
  { by destruct (split_on_nonempty space raw []). }
  destruct (hash_first_field raw a0 rest Hh Hs) as [Hw Hmc].
  rewrite commands_skip by done. split.
  - apply Forall_trace_try_except; [apply relay_effects|by repeat constructor].
  - intros Hauto. unfold relay. rewrite Hauto. cbn [orb].
    destruct rest; [done|]. unfold str_eqb. by rewrite bool_decide_eq_false_2.
Qed.

Lemma on_message_short_hash_line_witness :
  Forall neither_command_nor_reply
         (trace (on_message plain_runtime (config true true) (world true true)
                            (Some (group_event 1 "#/ list"))))
  /\ on_message plain_runtime (config false true) (world true true)
                (Some (group_event 1 "#/ list"))
     = ([], Next tt).
Proof.
  split.
  - refine (proj1 (on_message_short_hash_line plain_runtime (config true true)
              (world true true) (group_event 1 "#/ list") 1 (lit "#/ list") _ _ _)).
    + accept_event.
    + reflexivity.
    + vm_compute. lia.
  - refine (proj2 (on_message_short_hash_line plain_runtime (config false true)
              (world true true) (group_event 1 "#/ list") 1 (lit "#/ list") _ _ _) _).
    + accept_event.
    + reflexivity.
    + vm_compute. lia.
    + reflexivity.
Defined.

(** ** [on_message]: privileged lines of admins, and their parts *)

(** X28: an admin's three-part '#' line with operator '/' or '!' forwards
    the third part, as typed, to the client named by the second, tagged
    Vanilla for '/' and MCDR for '!', when the link is online; with the link
    offline the admin gets the offline notice and nothing is forwarded. *)
Theorem on_message_admin_operator rt cfg w data uid raw cmd0 cmd1 cmd2 more :
  accepted rt cfg w data uid raw ->
  uid ∈ admin cfg ->
  startswith (strip raw) (lit "#") = true ->
  split_ws (strip (tail1 raw)) 2 = cmd0 :: cmd1 :: cmd2 :: more ->
  cmd0 = lit "/" \/ cmd0 = lit "!" ->
  on_message rt cfg w (Some data)
  = if link_online w
    then ([SendCommand cmd1 cmd2
             (Some (if bool_decide (cmd0 = lit "/") then vanilla_params
                    else mcdr_params))], Return)
    else ([SendGroupMsg msg_offline], Return).
Proof.
  intros H Ha Hs Hc Hop.
  assert (G : privileged_gate rt cfg w uid raw
              = if link_online w
                then ([SendCommand cmd1 cmd2
                         (Some (if bool_decide (cmd0 = lit "/") then vanilla_params
                                else mcdr_params))], Return)
                else ([SendGroupMsg msg_offline], Return)).
  { unfold privileged_gate. rewrite Hs, Hc, (bool_decide_eq_true_2 _ Ha).
    destruct Hop as [-> | ->].
    - rewrite str_eqb_refl. destruct (link_online w); [done|].
      by apply notice_then_return.
    - change (str_eqb (lit "!") (lit "/")) with false. rewrite str_eqb_refl.
      destruct (link_online w); [done|]. by apply notice_then_return. }
  rewrite (on_message_gate_returned rt cfg w data uid raw H); [done|].
  rewrite G. by destruct (link_online w).
Qed.

Lemma on_message_admin_operator_witness :
  on_message plain_runtime (config false false) (world true true)
             (Some (group_event 1 "#! survival !!MCDR  status"))
  = ([SendCommand (lit "survival") (lit "!!MCDR  status") (Some mcdr_params)], Return).
Proof.
  refine (on_message_admin_operator plain_runtime (config false false)
            (world true true) (group_event 1 "#! survival !!MCDR  status") 1
            (lit "#! survival !!MCDR  status") (lit "!") (lit "survival")
            (lit "!!MCDR  status") [] _ _ _ _ _).
  - accept_event.
  - by_evaluation.
  - reflexivity.
  - reflexivity.
  - by right.
Defined.

Lemma ws_free_snoc (w : str) (c : char) :
  ws_free w -> isspace c = false -> ws_free (w ++ [c]).
Proof.
  unfold ws_free. intros Hw Hc. rewrite forallb_app. apply andb_true_iff.
  split; [done|]. cbn [forallb]. unfold printable. by rewrite Hc.
Qed.

Lemma starts_printable_snoc (w : str) (c : char) :
  starts_printable w -> starts_printable (w ++ [c]).
Proof. by destruct w. Qed.

(** [split(maxsplit=n)]: at most [n + 1] fields, one more while a field is
    being read; every field starts with a printable character; all but the
    last are free of whitespace; and when all the fields are there, the last
    one runs to the end of the text. *)
Lemma split_ws_go_fields (s : str) :
  forall n cur,
    match cur with Some w => ws_free w /\ starts_printable w | None => True end ->
    let extra := match cur with Some _ => 1%nat | None => 0%nat end in
    let fields := split_ws_go n cur s in
    (length fields <= n + 1 + extra)%nat
    /\ Forall starts_printable fields
    /\ all_but_last ws_free fields
    /\ (length fields = (n + 1 + extra)%nat ->
        exists x, last fields = Some x /\ x `suffix_of` s).
Proof.
  induction s as [|c r IH]; intros n cur Hcur; cbn zeta.
  - destruct cur as [w|]; cbn [split_ws_go length];
      refine (conj _ (conj _ (conj _ _))); try done; try lia.
    by constructor; [apply Hcur|].
  - cbn [split_ws_go]. destruct cur as [w|].
    + destruct Hcur as [Hw Hs]. destruct (isspace c) eqn:Hc.
      * destruct (IH n None I) as (L & F & A & E). cbn zeta in *.
        cbn [length]. refine (conj _ (conj _ (conj _ _))).
        -- lia.
        -- by constructor.
        -- cbn [all_but_last]. by destruct (split_ws_go n None r).
        -- intros Hlen. destruct E as (x & Hx & Hsuf); [lia|].
           exists x. split; [|by apply suffix_cons_r].
           by destruct (split_ws_go n None r).
      * destruct (IH n (Some (w ++ [c]))) as (L & F & A & E).
        { split; [by apply ws_free_snoc|by apply starts_printable_snoc]. }
        cbn zeta in *. refine (conj _ (conj _ (conj _ _))); try done.
        intros Hlen. destruct (E Hlen) as (x & Hx & Hsuf).
        exists x. split; [done|by apply suffix_cons_r].
    + destruct (isspace c) eqn:Hc.
      * destruct (IH n None I) as (L & F & A & E). cbn zeta in *.
        refine (conj _ (conj _ (conj _ _))); try done.
        intros Hlen. destruct (E Hlen) as (x & Hx & Hsuf).
        exists x. split; [done|by apply suffix_cons_r].
      * destruct n as [|m].
        -- cbn [length]. refine (conj _ (conj _ (conj _ _))).
           ++ lia.
           ++ by constructor.
           ++ done.
           ++ intros _. by exists (c :: r).
        -- destruct (IH m (Some [c])) as (L & F & A & E).
           { split; [|done]. unfold ws_free, printable. cbn [forallb].
             by rewrite Hc. }
           cbn zeta in *. refine (conj _ (conj _ (conj _ _))).
           ++ lia.
           ++ done.
           ++ done.
           ++ intros Hlen. destruct E as (x & Hx & Hsuf); [lia|].
              exists x. split; [done|by apply suffix_cons_r].
Qed.

Lemma strip_last (s : str) :
  match last (strip s) with Some c => isspace c = false | None => True end.
Proof. unfold strip. apply rstrip_last. Qed.

Lemma strip_fixed (f : str) :
  starts_printable f ->
  match last f with Some c => isspace c = false | None => True end ->
  strip f = f.
Proof.
  intros Hs Hl. unfold strip.
  assert (Hlstrip : lstrip f = f).
  { destruct f as [|c f']; [done|]. cbn in Hs. cbn [lstrip]. by rewrite Hs. }
  rewrite Hlstrip. destruct f as [|c f'] using rev_ind; [done|].
  rewrite last_snoc in Hl. by apply rstrip_snoc.
Qed.

(** X29: the parts of a '#' line, as line 74 cuts them: there are at most
    three; when there are three, the classifier and the client name are not
    empty and hold no whitespace, and the third part is not empty, has no
    whitespace at either end, so that the [strip()] of lines 95 and 109
    leaves it as it is. *)
Theorem privileged_line_parts (raw : str) :
  let cmd := split_ws (strip (tail1 raw)) 2 in
  (length cmd <= 3)%nat
  /\ (forall cmd0 cmd1 cmd2 more, cmd = cmd0 :: cmd1 :: cmd2 :: more ->
        more = []
        /\ cmd0 <> [] /\ ws_free cmd0
        /\ cmd1 <> [] /\ ws_free cmd1
        /\ cmd2 <> [] /\ strip cmd2 = cmd2).
Proof.
  cbn zeta. unfold split_ws.
  destruct (split_ws_go_fields (strip (tail1 raw)) 2 None I) as (L & F & A & E).
  cbn zeta in *. split; [lia|].
  intros cmd0 cmd1 cmd2 more Hcmd. rewrite Hcmd in *.
  assert (more = []) as ->.
  { destruct more; [done|]. cbn [length] in L. lia. }
  destruct (E eq_refl) as (x & Hx & Hsuf). cbn in Hx. injection Hx as <-.
  cbn [all_but_last] in A. destruct A as (A0 & A1 & _).
  inversion F as [|? ? F0 F']; subst. inversion F' as [|? ? F1 F'']; subst.
  inversion F'' as [|? ? F2 _]; subst.
  repeat split; try done; try (by intros ->).
  apply strip_fixed; [done|].
  destruct Hsuf as [pre Hpre]. pose proof (strip_last (tail1 raw)) as Hl.
  rewrite Hpre in Hl.
  destruct cmd2 as [|c f'] using rev_ind; [done|].
  rewrite app_assoc, last_snoc in Hl. by rewrite last_snoc.
Qed.

Lemma privileged_line_parts_witness :
  [] = @nil str
  /\ lit "wHiTeList" <> [] /\ ws_free (lit "wHiTeList")
  /\ lit "survival" <> [] /\ ws_free (lit "survival")
  /\ lit "Steve  Alex" <> [] /\ strip (lit "Steve  Alex") = lit "Steve  Alex".
Proof.
  refine (proj2 (privileged_line_parts (lit "# wHiTeList   survival Steve  Alex  "))
            (lit "wHiTeList") (lit "survival") (lit "Steve  Alex") [] _).
  reflexivity.
Defined.

Lemma split_ws_go_first_field (s : str) :
  forall n w, exists f rest, split_ws_go n (Some w) s = f :: rest /\ w `prefix_of` f.
Proof.
  induction s as [|c r IH]; intros n w; cbn [split_ws_go].
  - by exists w, [].
  - destruct (isspace c).
    + by exists w, (split_ws_go n None r).
    + destruct (IH n (w ++ [c])) as (f & rest & E & P).
      exists f, rest. split; [done|]. etrans; [|done]. by apply prefix_app_r.
Qed.

Lemma startswith_hash (s : str) :
  startswith s (lit "#") = true -> exists t, s = 35 :: t.
Proof.
  destruct s as [|b t]; [done|]. change (lit "#") with [35]. cbn [startswith].
  intros [H _]%andb_true_iff. apply N.eqb_eq in H. subst. by exists t.
Qed.

Lemma hash_word_no_alias (x : str) :
  35 :: x <> lit "/" /\ 35 :: x <> lit "!"
  /\ (lower (35 :: x) ∉ offline_aliases) /\ (lower (35 :: x) ∉ whitelist_aliases).
Proof.
  split; [done|]. split; [done|]. unfold offline_aliases, whitelist_aliases.
  split; intros H;
    repeat (apply elem_of_cons in H as [H | H]; [discriminate H|]);
    by apply elem_of_nil in H.
Qed.

(** X30: line 74 cuts the first character off the text as it came, not as
    stripped. So when whitespace stands before the '#', the '#' stays in
    front of the classifier, and a three-part line is never served: a sender
    outside the admin set gets the refusal, and an admin, with the automatic
    relay off, gets no answer at all. *)
Theorem hash_line_leading_space rt cfg w data uid c r cmd0 cmd1 cmd2 more :
  accepted rt cfg w data uid (c :: r) ->
  isspace c = true ->
  startswith (strip (c :: r)) (lit "#") = true ->
  split_ws (strip (tail1 (c :: r))) 2 = cmd0 :: cmd1 :: cmd2 :: more ->
  head cmd0 = Some 35
  /\ (uid ∉ admin cfg ->
      on_message rt cfg w (Some data) = ([SendGroupMsg msg_command_failed], Return))
  /\ (uid ∈ admin cfg -> qq_to_mc_auto cfg = false ->
      on_message rt cfg w (Some data) = ([], Next tt)).
Proof.
  intros H Hc Hh Hcmd.
  assert (Hstrip : strip (tail1 (c :: r)) = strip (c :: r)).
  { unfold strip, tail1. cbn [drop lstrip]. by rewrite Hc. }
  assert (Hx : exists x, cmd0 = 35 :: x).
  { rewrite Hstrip in Hcmd. destruct (startswith_hash _ Hh) as [t Ht].
    rewrite Ht in Hcmd. unfold split_ws in Hcmd.
    change (split_ws_go 2 None (35 :: t)) with (split_ws_go 1 (Some [35]) t) in Hcmd.
    destruct (split_ws_go_first_field t 1 [35]) as (f & rest & E & [x P]).
    pose proof (eq_trans (eq_sym E) Hcmd) as Q. injection Q as <- _.
    by exists x. }
  destruct Hx as [x ->].
  destruct (hash_word_no_alias x) as (N1 & N2 & N3 & N4).
  split; [done|split].
  - intros Ha.
    rewrite (on_message_non_admin rt cfg w data uid (c :: r) (35 :: x) cmd1 cmd2 more)
      by done.
    by rewrite !bool_decide_eq_false_2.
  - intros Ha Hauto.
    rewrite (on_message_accepted _ _ _ _ _ _ H). unfold dispatch.
    rewrite (admin_line_falls_through rt cfg w uid (c :: r) (35 :: x) cmd1 cmd2 more)
      by done.
    rewrite bind_pass.
    destruct (split (c :: r) space) as [|a0 rest] eqn:Hs.
    { by destruct (split_on_nonempty space (c :: r) []). }
    destruct (hash_first_field (c :: r) a0 rest Hh Hs) as [Hw Hmc].
    rewrite commands_skip by done. unfold relay. rewrite Hauto. cbn [orb].
    destruct rest; [done|]. unfold str_eqb. by rewrite bool_decide_eq_false_2.
Qed.

Lemma hash_line_leading_space_witness :
  on_message plain_runtime (config false true) (world true true)
             (Some (group_event 2 " #whitelist survival Steve"))
  = ([SendGroupMsg msg_command_failed], Return).
Proof.
  refine (proj1 (proj2 (hash_line_leading_space plain_runtime (config false true)
            (world true true) (group_event 2 " #whitelist survival Steve") 2
            32 (lit "#whitelist survival Steve") (lit "#whitelist") (lit "survival")
            (lit "Steve") [] _ _ _ _)) _).
  - accept_event.
  - reflexivity.
  - reflexivity.
  - reflexivity.
  - by_evaluation.
Defined.
